(** * Header block tool for Editor.js (src/index.js): a shallow embedding

    The plugin is one JavaScript class, [Header].  Its getters read only
    [this._config] and [this._data]; its methods additionally mutate the
    tracked DOM element [this._element].  The embedding follows that shape:

    - [Js]     : the fragment of JavaScript values and built-ins the class
                 relies on (truthiness, [||], [===], [typeof], [ToString],
                 [parseInt(_, 10)], [Array.prototype.includes]);
    - [Dom]    : a store of DOM nodes addressed by identity, so that a node
                 replaced in its parent and the node tracked by the widget
                 can be told apart;
    - [Header] : the class itself, member by member, under the source names;
    - [Scenario], [Observe] : the concrete documents and the few derived
                 notions the statements are written with.

    Modelling conventions.
    - Numbers are the integer-valued doubles and the two infinities,
      written as [Z], plus [NaN].  Fractions are outside the model.
      [ToString] and [parseInt] follow the language: the shortest
      decimal that rounds to the double, in exponent form from 10^21
      on, and the double nearest to the digits read.
    - Objects are plain objects (an association list of own properties);
      arrays only occur as the two allow-lists of the configuration.
    - [innerHTML] is not a plain property: a read returns the
      serialisation of what the assigned string was parsed to.  The
      model knows that serialisation for character data, and takes a
      string with tags or character references to be serialised markup
      already (see [Dom.reads_as]).
    - An exception is a value of [result]: [Throw TypeError] stands for the
      [TypeError] raised by a property read on [undefined] or [null].
    - Strings are sequences of bytes, read as UTF-8 where characters
      matter ([trim], [parseInt], the no-break space). *)

From stdpp Require Import base option list strings gmap fin_maps.
From Stdlib Require Import ZArith Lia Ascii String DecimalString DecimalPos.

Local Open Scope string_scope.
Local Open Scope Z_scope.

(* ===================================================================== *)
(** ** JavaScript values and built-ins                                     *)
(* ===================================================================== *)

Module Js.

Inductive num : Type :=
  | NaN
  | Int (z : Z).

#[local] Set Warnings "-register-all".
Inductive value : Type :=
  | VUndefined
  | VNull
  | VBool (b : bool)
  | VNum (n : num)
  | VStr (s : string)
  | VObj (props : list (string * value)).
#[local] Set Warnings "register-all".

Inductive error : Type :=
  | TypeError
  | NotFoundError.

Inductive result (A : Type) : Type :=
  | Ok (a : A)
  | Throw (e : error).
Arguments Ok {A} a.
Arguments Throw {A} e.

Definition bind {A B : Type} (m : result A) (k : A -> result B) : result B :=
  match m with
  | Ok a => k a
  | Throw e => Throw e
  end.

#[export] Instance result_ret : MRet result := fun A a => Ok a.
#[export] Instance result_bind : MBind result := fun A B k m => bind m k.

(** [ToBoolean]. *)
Definition truthy (v : value) : bool :=
  match v with
  | VUndefined | VNull => false
  | VBool b => b
  | VNum NaN => false
  | VNum (Int z) => negb (Z.eqb z 0)
  | VStr s => negb (String.eqb s "")
  | VObj _ => true
  end.

(** [a || b]. *)
Definition or (a b : value) : value := if truthy a then a else b.

(** [typeof v]. *)
Definition typeof (v : value) : string :=
  match v with
  | VUndefined => "undefined"
  | VNull => "object"
  | VBool _ => "boolean"
  | VNum _ => "number"
  | VStr _ => "string"
  | VObj _ => "object"
  end.

Fixpoint assoc (k : string) (props : list (string * value)) : option value :=
  match props with
  | [] => None
  | (k', v) :: rest => if String.eqb k k' then Some v else assoc k rest
  end.

(** [v.k] for the property names the class reads ([text], [level],
    [align]): a [TypeError] on [undefined] and [null], [undefined] on a
    primitive (its wrapper has no such property) and on a missing key. *)
Definition get (v : value) (k : string) : result value :=
  match v with
  | VUndefined | VNull => Throw TypeError
  | VObj props => Ok (default VUndefined (assoc k props))
  | VBool _ | VNum _ | VStr _ => Ok VUndefined
  end.

(** *** White space

    Strings are read as UTF-8.  [whitespace] lists the code points of
    WhiteSpace and LineTerminator: U+0009..U+000D, U+0020, U+00A0,
    U+1680, U+2000..U+200A, U+2028, U+2029, U+202F, U+205F, U+3000 and
    U+FEFF.  It is what [String.prototype.trim] strips at both ends and
    what [parseInt] skips in front of the number (StrWhiteSpaceChar). *)
Definition bytes (l : list nat) : string :=
  fold_right (fun n s => String (ascii_of_nat n) s) EmptyString l.

Definition whitespace : list string :=
  map bytes
    [ [9]; [10]; [11]; [12]; [13]; [32]; [194; 160]; [225; 154; 128];
      [226; 128; 128]; [226; 128; 129]; [226; 128; 130]; [226; 128; 131];
      [226; 128; 132]; [226; 128; 133]; [226; 128; 134]; [226; 128; 135];
      [226; 128; 136]; [226; 128; 137]; [226; 128; 138]; [226; 128; 168];
      [226; 128; 169]; [226; 128; 175]; [226; 129; 159]; [227; 128; 128];
      [239; 187; 191] ]%nat.

(** [strip_prefix w s] is [Some r] when [s] is [w] followed by [r]. *)
Fixpoint strip_prefix (w s : string) : option string :=
  match w, s with
  | EmptyString, _ => Some s
  | String a w', String b s' =>
      if Ascii.eqb a b then strip_prefix w' s' else None
  | String _ _, EmptyString => None
  end.

(** What follows the white space character [s] starts with, if any. *)
Definition strip_whitespace (s : string) : option string :=
  fold_right (fun w found =>
                match strip_prefix w s with
                | Some r => Some r
                | None => found
                end)
             None whitespace.

Fixpoint trimStart_loop (fuel : nat) (s : string) : string :=
  match fuel with
  | O => s
  | S fuel' =>
      match strip_whitespace s with
      | Some r => trimStart_loop fuel' r
      | None => s
      end
  end.

(** [s.trimStart()]: every stripped character has at least one byte, so
    [length s] turns are enough. *)
Definition trimStart (s : string) : string :=
  trimStart_loop (String.length s) s.

(** [s.trimEnd()]: cut where what remains is white space only. *)
Fixpoint trimEnd (s : string) : string :=
  match s with
  | EmptyString => EmptyString
  | String c rest =>
      if String.eqb (trimStart s) "" then EmptyString
      else String c (trimEnd rest)
  end.

(** [s.trim()]. *)
Definition trim (s : string) : string := trimEnd (trimStart s).

(** *** Numbers

    A number is a double.  [Int z] stands for the double nearest to the
    integer [z]: [z] itself when [z] is a double (every [z] below 2^53 in
    absolute value is), and plus or minus infinity, written as plus or
    minus 2^1024, when [z] is beyond the doubles. *)
Definition INFINITY : Z := 2 ^ 1024.

(** Rounding an integer to the nearest double, ties to the even
    significand: keep the 53 leading bits. *)
Definition nearest_double (z : Z) : Z :=
  let a := Z.abs z in
  if a <? 2 ^ 53 then z
  else
    let e := Z.log2 a - 52 in
    let q := a / 2 ^ e in
    let r := a mod 2 ^ e in
    let half := 2 ^ (e - 1) in
    let q := if (half <? r) || ((r =? half) && Z.odd q) then q + 1 else q in
    let m := q * 2 ^ e in
    Z.sgn z * (if INFINITY <=? m then INFINITY else m).

Definition string_of_Z (z : Z) : string :=
  NilZero.string_of_int (Z.to_int z).

(** The number of decimal digits of a positive integer. *)
Definition decimal_length (a : Z) : Z :=
  Z.of_nat (String.length (string_of_Z a)).

(** [shortest_loop] looks for the decimal with the fewest significant
    digits that still rounds to the double [a] (2^53 <= a < 2^1024), as
    Number::toString prescribes; of two such decimals it takes the one
    nearer to [a].  With [k] significant digits the candidates are the
    two multiples of 10^(n-k) around [a].  A decimal rounds to [a] when
    it lies no further than half the gap to the neighbouring double,
    the bound included when the significand of [a] is even; [below] and
    [above] are four times those half gaps. *)
Fixpoint shortest_loop (fuel : nat) (a below above : Z) (closed : bool)
    (n k : Z) : Z :=
  match fuel with
  | O => a
  | S fuel' =>
      let p := 10 ^ (n - k) in
      let lo := (a / p) * p in
      let hi := lo + p in
      let inside c :=
        if closed
        then (4 * a - below <=? 4 * c) && (4 * c <=? 4 * a + above)
        else (4 * a - below <? 4 * c) && (4 * c <? 4 * a + above) in
      match inside lo, inside hi with
      | true, true =>
          if a - lo <? hi - a then lo
          else if hi - a <? a - lo then hi
          else if Z.even (a / p) then lo else hi
      | true, false => lo
      | false, true => hi
      | false, false => shortest_loop fuel' a below above closed n (k + 1)
      end
  end.

Definition shortest_decimal (a : Z) : Z :=
  let e := Z.log2 a - 52 in
  let q := a / 2 ^ e in
  let below := if q =? 2 ^ 52 then 2 ^ e else 2 ^ (e + 1) in
  let above := 2 ^ (e + 1) in
  let n := decimal_length a in
  shortest_loop (Z.to_nat n) a below above (Z.even q) n 1.

Fixpoint strip_trailing_zeros (s : string) : string :=
  match s with
  | EmptyString => EmptyString
  | String c rest =>
      let r := strip_trailing_zeros rest in
      if String.eqb r "" && Ascii.eqb c "0" then EmptyString else String c r
  end.

(** Number::toString for an integer-valued double: its decimal digits
    up to 2^53; beyond, the shortest decimal that rounds to it, written
    out in full when it has at most 21 digits and in exponent form
    otherwise. *)
Definition number_to_string (z : Z) : string :=
  let x := nearest_double z in
  let a := Z.abs x in
  let sign := if x <? 0 then "-" else "" in
  if a <? 2 ^ 53 then string_of_Z x
  else if INFINITY <=? a then sign +:+ "Infinity"
  else
    let digits := string_of_Z (shortest_decimal a) in
    let n := Z.of_nat (String.length digits) in
    if n <=? 21 then sign +:+ digits
    else
      match strip_trailing_zeros digits with
      | String d EmptyString =>
          sign +:+ String d "e+" +:+ string_of_Z (n - 1)
      | String d rest =>
          sign +:+ String d ("." +:+ rest) +:+ "e+" +:+ string_of_Z (n - 1)
      | EmptyString => EmptyString
      end.

(** [ToString]. *)
Definition to_string (v : value) : string :=
  match v with
  | VUndefined => "undefined"
  | VNull => "null"
  | VBool true => "true"
  | VBool false => "false"
  | VNum NaN => "NaN"
  | VNum (Int z) => number_to_string z
  | VStr s => s
  | VObj _ => "[object Object]"
  end.

(** [a + b] where the left operand is a string: string concatenation. *)
Definition concat (a : string) (b : value) : string := a +:+ to_string b.

Definition digit_of (c : ascii) : option Z :=
  let n := Z.of_nat (nat_of_ascii c) in
  if (48 <=? n) && (n <=? 57) then Some (n - 48) else None.

(** The longest prefix of decimal digits, read as a number; [None] when
    that prefix is empty. *)
Fixpoint read_digits (s : string) (acc : option Z) : option Z :=
  match s with
  | String c rest =>
      match digit_of c with
      | Some d => read_digits rest (Some (10 * default 0 acc + d))
      | None => acc
      end
  | EmptyString => acc
  end.

(** [parseInt] on a string: skip the leading white space, read a sign
    and the longest run of decimal digits, and return the double nearest
    to the integer they spell. *)
Definition parse_int_string (s : string) : num :=
  let s1 := trimStart s in
  let '(neg, s2) :=
    match s1 with
    | String "-" rest => (true, rest)
    | String "+" rest => (false, rest)
    | _ => (false, s1)
    end in
  match read_digits s2 None with
  | None => NaN
  | Some n => Int (nearest_double (if neg : bool then - n else n))
  end.

(** [parseInt(v, 10)]. *)
Definition parseInt (v : value) : num := parse_int_string (to_string v).

(** [a === b].  Two objects are equal when they are the same object; the
    class only ever compares against a number, a string or [undefined],
    so that case is [false] here. *)
Definition strict_eq (a b : value) : bool :=
  match a, b with
  | VUndefined, VUndefined => true
  | VNull, VNull => true
  | VBool x, VBool y => Bool.eqb x y
  | VNum (Int x), VNum (Int y) => Z.eqb x y
  | VStr x, VStr y => String.eqb x y
  | _, _ => false
  end.

(** SameValueZero, the comparison of [Array.prototype.includes]. *)
Definition same_value_zero (a b : value) : bool :=
  match a, b with
  | VNum NaN, VNum NaN => true
  | _, _ => strict_eq a b
  end.

(** [arr.includes(x)]. *)
Definition includes (arr : list value) (x : value) : bool :=
  existsb (fun y => same_value_zero y x) arr.

End Js.

(* ===================================================================== *)
(** ** The document: a store of nodes addressed by identity                *)
(* ===================================================================== *)

Module Dom.

(** A node reference: two references are the same node iff they are equal. *)
Abbreviation ref := nat.

(** *** What [innerHTML] reads back

    Assigning a string to [innerHTML] parses it as an HTML fragment, and
    reading [innerHTML] serialises the children again.  For character
    data the two steps are known exactly: the string becomes one text
    node, whose serialisation writes [&], [<] and [>] as [&amp;], [&lt;]
    and [&gt;].  [text_only] recognises character data: no NUL and no
    carriage return (the parser drops the one and rewrites the other),
    no no-break space (serialised as [&nbsp;]), no [&] that starts a
    character reference and no [<] that starts a tag, a comment or a
    declaration. *)
Definition is_digit (c : ascii) : bool :=
  let n := nat_of_ascii c in ((48 <=? n) && (n <=? 57))%nat.

Definition is_alpha (c : ascii) : bool :=
  let n := nat_of_ascii c in
  (((65 <=? n) && (n <=? 90)) || ((97 <=? n) && (n <=? 122)))%nat.

(** What follows a [&] makes it the start of a character reference. *)
Definition starts_reference (rest : string) : bool :=
  match rest with
  | String c _ => is_alpha c || is_digit c || Ascii.eqb c "#"
  | EmptyString => false
  end.

(** What follows a [<] makes it the start of a tag, a comment, a
    declaration or a processing instruction. *)
Definition starts_tag (rest : string) : bool :=
  match rest with
  | String c _ =>
      is_alpha c || Ascii.eqb c "/" || Ascii.eqb c "!" || Ascii.eqb c "?"
  | EmptyString => false
  end.

(** What follows the byte [0xC2] makes the two the no-break space. *)
Definition ends_no_break_space (rest : string) : bool :=
  match rest with
  | String c _ => Ascii.eqb c (ascii_of_nat 160)
  | EmptyString => false
  end.

Fixpoint text_only (s : string) : bool :=
  match s with
  | EmptyString => true
  | String c rest =>
      negb (Ascii.eqb c (ascii_of_nat 0)) &&
      negb (Ascii.eqb c (ascii_of_nat 13)) &&
      negb (Ascii.eqb c "&" && starts_reference rest) &&
      negb (Ascii.eqb c "<" && starts_tag rest) &&
      negb (Ascii.eqb c (ascii_of_nat 194) && ends_no_break_space rest) &&
      text_only rest
  end.

(** The serialisation of a text node. *)
Fixpoint escape (s : string) : string :=
  match s with
  | EmptyString => EmptyString
  | String c rest =>
      if Ascii.eqb c "&" then "&amp;" +:+ escape rest
      else if Ascii.eqb c "<" then "&lt;" +:+ escape rest
      else if Ascii.eqb c ">" then "&gt;" +:+ escape rest
      else String c (escape rest)
  end.

(** What [innerHTML] reads once [s] has been assigned to it.  Outside
    the character data, [s] is taken to be serialised markup, which
    reads back as it is: that is so of every string that was itself
    read from an element, and it is all the class needs of such
    strings.  What a foreign string with tags or character references
    reads back as is outside the model; the statements about assigning
    a foreign string are restricted to [text_only] or [inert] ones. *)
Definition reads_as (s : string) : string :=
  if text_only s then escape s else s.

(** Character data that is its own serialisation. *)
Definition inert (s : string) : bool :=
  text_only s && String.eqb (escape s) s.

(** The properties of an element the class touches.  [markup] is the
    string last assigned to [innerHTML]; [placeholder] is
    [dataset.placeholder]; [childNodes] is only used for the host's
    container into which the heading is inserted. *)
Record node : Type := Node {
  tagName : string;
  markup : string;
  classList : list string;
  contentEditable : bool;
  placeholder : string;
  parentNode : option ref;
  childNodes : list ref
}.

Abbreviation store := (gmap nat node).

(** Reading [el.innerHTML]. *)
Definition innerHTML (n : node) : string := reads_as (markup n).

(** Assigning [el.innerHTML = s]. *)
Definition set_innerHTML (s : string) (n : node) : node :=
  Node (tagName n) s (classList n) (contentEditable n) (placeholder n)
       (parentNode n) (childNodes n).

Definition set_classList (cs : list string) (n : node) : node :=
  Node (tagName n) (markup n) cs (contentEditable n) (placeholder n)
       (parentNode n) (childNodes n).

Definition set_contentEditable (b : bool) (n : node) : node :=
  Node (tagName n) (markup n) (classList n) b (placeholder n)
       (parentNode n) (childNodes n).

Definition set_placeholder (s : string) (n : node) : node :=
  Node (tagName n) (markup n) (classList n) (contentEditable n) s
       (parentNode n) (childNodes n).

Definition set_parentNode (p : option ref) (n : node) : node :=
  Node (tagName n) (markup n) (classList n) (contentEditable n)
       (placeholder n) p (childNodes n).

Definition set_childNodes (cs : list ref) (n : node) : node :=
  Node (tagName n) (markup n) (classList n) (contentEditable n)
       (placeholder n) (parentNode n) cs.

(** [document.createElement(tag)]: a new, detached, empty element. *)
Definition createElement (tag : string) (d : store) : ref * store :=
  let r := fresh (dom d) in
  (r, <[r := Node tag "" [] false "" None []]> d).

(** A DOMTokenList is an ordered set of tokens. *)
Definition token_add (c : string) (cs : list string) : list string :=
  if existsb (String.eqb c) cs then cs else cs ++ [c].

Definition token_remove (c : string) (cs : list string) : list string :=
  List.filter (fun x => negb (String.eqb c x)) cs.

(** [el.classList.add(c)], [el.classList.remove(c)]. *)
Definition classList_add (c : string) (n : node) : node :=
  set_classList (token_add c (classList n)) n.

Definition classList_remove (c : string) (n : node) : node :=
  set_classList (token_remove c (classList n)) n.

Fixpoint replace_ref (old new : ref) (l : list ref) : list ref :=
  match l with
  | [] => []
  | x :: rest =>
      if Nat.eqb x old then new :: rest else x :: replace_ref old new rest
  end.

(** [parent.replaceChild(newChild, oldChild)] for a detached [newChild]:
    [NotFoundError] when [oldChild] is not a child of [parent]. *)
Definition replaceChild (parent newChild oldChild : ref) (d : store)
  : Js.result store :=
  match d !! parent with
  | Some p =>
      if existsb (Nat.eqb oldChild) (childNodes p) then
        let d1 := alter (set_childNodes
                           (replace_ref oldChild newChild (childNodes p)))
                        parent d in
        let d2 := alter (set_parentNode (Some parent)) newChild d1 in
        Js.Ok (alter (set_parentNode None) oldChild d2)
      else Js.Throw Js.NotFoundError
  | None => Js.Throw Js.NotFoundError
  end.

End Dom.

(* ===================================================================== *)
(** ** The class [Header]                                                  *)
(* ===================================================================== *)

Module Header.
Import Js.

(** The icon modules ([./icons/*.js]) are static assets; an icon is
    represented by its name.  [alignmentIcon a] is [getAlignmentIcon(a)]. *)
Inductive icon_t : Type :=
  | headerIcon | h1Icon | h2Icon | h3Icon | h4Icon | h5Icon | h6Icon
  | alignmentIcon (align : string).

Record level_t : Type := Level {
  id : Z;
  tag : string;
  icon : icon_t
}.

(** The two messages the class can write with [console.warn]. *)
Inductive warning : Type :=
  | DefaultLevelNotFound
  | DefaultAlignTypeInvalid.

(** [this._config].  An allow-list is [None] when the option is absent
    (or falsy) and [Some arr] when it is an array; the other two options
    are arbitrary values, [VUndefined] when absent. *)
Record config : Type := Config {
  placeholder : string;
  levels : option (list value);
  defaultLevel : value;
  alignTypes : option (list value);
  defaultAlignType : value
}.

(** [{}] as a configuration. *)
Definition empty_config : config :=
  Config "" None VUndefined None VUndefined.

(** [this._data]: [level] is always the result of
    [parseInt(..) || this.userDefaultLevel.id], a number. *)
Record data_t : Type := Data {
  text : value;
  level : Z;
  align : value
}.

(** What [save] returns. *)
Record saved_t : Type := Saved {
  saved_text : string;
  saved_level : Z;
  saved_align : string
}.

Definition HEADER_LEVELS : list level_t :=
  [ Level 1 "H1" h1Icon; Level 2 "H2" h2Icon; Level 3 "H3" h3Icon;
    Level 4 "H4" h4Icon; Level 5 "H5" h5Icon; Level 6 "H6" h6Icon ].

Definition DEFAULT_HEADER_LEVEL : level_t := Level 1 "H1" h1Icon.

Definition ALIGN_TYPES : list string := ["left"; "center"; "right"; "justify"].

Definition DEFAULT_ALIGN_TYPE : string := "left".

(** [this._CSS]. *)
Definition CSS_wrapper : string := "ce-header".

Definition CSS_wrapperForAlignment (alignType : value) : string :=
  "ce-header-align-" +:+ to_string alignType.

(** [parseInt(v, 10) || d] with [d] a number. *)
Definition parseInt_or (v : value) (d : Z) : Z :=
  match parseInt v with
  | Int z => if truthy (VNum (Int z)) then z else d
  | NaN => d
  end.

(** *** Getters: functions of [this._config] and [this._data] *)

Definition availableLevels (cfg : config) : list level_t :=
  match levels cfg with
  | Some allowed =>
      List.filter (fun level => includes allowed (VNum (Int (id level))))
                  HEADER_LEVELS
  | None => HEADER_LEVELS
  end.

(** The getter's value together with what it wrote to the console.  A
    level found by [find] is an object, hence truthy. *)
Definition userDefaultLevel_run (cfg : config) : level_t * list warning :=
  if truthy (defaultLevel cfg) then
    match List.find
            (fun levelItem =>
               strict_eq (VNum (Int (id levelItem)))
                         (VNum (parseInt (defaultLevel cfg))))
            (availableLevels cfg) with
    | Some userSpecified => (userSpecified, [])
    | None => (DEFAULT_HEADER_LEVEL, [DefaultLevelNotFound])
    end
  else (DEFAULT_HEADER_LEVEL, []).

Definition userDefaultLevel (cfg : config) : level_t :=
  fst (userDefaultLevel_run cfg).

Definition availableAlignTypes (cfg : config) : list string :=
  match alignTypes cfg with
  | Some allowed =>
      List.filter (fun align => includes allowed (VStr align)) ALIGN_TYPES
  | None => ALIGN_TYPES
  end.

Definition userDefaultAlignType_run (cfg : config) : string * list warning :=
  if truthy (defaultAlignType cfg) then
    match List.find (fun align => strict_eq (VStr align) (defaultAlignType cfg))
                    (availableAlignTypes cfg) with
    | Some userSpecified =>
        if truthy (VStr userSpecified) then (userSpecified, [])
        else (DEFAULT_ALIGN_TYPE, [DefaultAlignTypeInvalid])
    | None => (DEFAULT_ALIGN_TYPE, [DefaultAlignTypeInvalid])
    end
  else (DEFAULT_ALIGN_TYPE, []).

Definition userDefaultAlignType (cfg : config) : string :=
  fst (userDefaultAlignType_run cfg).

Definition _normalizeData (cfg : config) (data : value) : result data_t :=
  let data :=
    if negb (String.eqb (typeof data) "object") then VObj [] else data in
  data_text ← get data "text";
  data_level ← get data "level";
  data_align ← get data "align";
  mret (Data (or data_text (VStr ""))
             (parseInt_or data_level (id (userDefaultLevel cfg)))
             (or data_align (VStr (userDefaultAlignType cfg)))).

Definition currentLevel (cfg : config) (dat : data_t) : level_t :=
  match List.find (fun levelItem => Z.eqb (id levelItem) (level dat))
                  (availableLevels cfg) with
  | Some found => found
  | None => userDefaultLevel cfg
  end.

Definition currentAlignType (cfg : config) (dat : data_t) : string :=
  match List.find (fun a => strict_eq (VStr a) (align dat))
                  (availableAlignTypes cfg) with
  | Some found =>
      if truthy (VStr found) then found else userDefaultAlignType cfg
  | None => userDefaultAlignType cfg
  end.

(** *** The instance and its methods *)

(** [this].  [_api] is the host's translation function [api.i18n.t]. *)
Record t : Type := Instance {
  _api : string -> string;
  _readOnly : value;
  _config : config;
  _data : data_t;
  _element : Dom.ref
}.

Definition with_data (dat : data_t) (h : t) : t :=
  Instance (_api h) (_readOnly h) (_config h) dat (_element h).

Definition with_element (r : Dom.ref) (h : t) : t :=
  Instance (_api h) (_readOnly h) (_config h) (_data h) r.

(** [_getElement()] reads every field of [this] but [_element], which
    is not yet assigned when the constructor calls it. *)
Definition _getElement (i18n_t : string -> string) (readOnly : value)
    (cfg : config) (dat : data_t) (d : Dom.store) : Dom.ref * Dom.store :=
  let '(el, d) := Dom.createElement (tag (currentLevel cfg dat)) d in
  let d := alter (Dom.set_innerHTML (to_string (or (text dat) (VStr "")))) el d in
  let d := alter (Dom.classList_add CSS_wrapper) el d in
  let d := alter (Dom.classList_add
                    (CSS_wrapperForAlignment (VStr (currentAlignType cfg dat))))
                 el d in
  let d := alter (Dom.set_contentEditable (negb (truthy readOnly))) el d in
  let d := alter (Dom.set_placeholder
                    (i18n_t (to_string (or (VStr (placeholder cfg)) (VStr "")))))
                 el d in
  (el, d).

(** [new Header({api, readOnly, config, data})]; [config] is [None] when
    the host passes none ([config || {}]). *)
Definition constructor (i18n_t : string -> string) (readOnly : value)
    (cfg : option config) (data : value) (d : Dom.store)
  : result (t * Dom.store) :=
  let cfg := default empty_config cfg in
  dat ← _normalizeData cfg data;
  let '(el, d) := _getElement i18n_t readOnly cfg dat d in
  mret (Instance i18n_t readOnly cfg dat el, d).

(** [el.parentNode] and [el.innerHTML] through a reference. *)
Definition parentNode_of (el : Dom.ref) (d : Dom.store) : option Dom.ref :=
  d !! el ≫= Dom.parentNode.

Definition innerHTML_of (el : Dom.ref) (d : Dom.store) : string :=
  default "" (Dom.innerHTML <$> d !! el).

Definition _setHeaderLevel (newLevel : value) (h : t) (d : Dom.store)
  : result (t * Dom.store) :=
  let h := with_data (Data (text (_data h))
                           (parseInt_or newLevel
                              (id (userDefaultLevel (_config h))))
                           (align (_data h))) h in
  if negb (strict_eq newLevel VUndefined) then
    match parentNode_of (_element h) d with
    | Some parent =>
        let '(newHeader, d) :=
          _getElement (_api h) (_readOnly h) (_config h) (_data h) d in
        let d := alter (Dom.set_innerHTML (innerHTML_of (_element h) d))
                       newHeader d in
        d ← Dom.replaceChild parent newHeader (_element h) d;
        mret (with_element newHeader h, d)
    | None => mret (h, d)
    end
  else mret (h, d).

Definition _setAlignType (newAlign : value) (h : t) (d : Dom.store)
  : t * Dom.store :=
  let h := with_data (Data (text (_data h)) (level (_data h)) newAlign) h in
  let d :=
    fold_left
      (fun d a =>
         let alignClass := CSS_wrapperForAlignment (VStr a) in
         let d := alter (Dom.classList_remove alignClass) (_element h) d in
         if strict_eq newAlign (VStr a)
         then alter (Dom.classList_add alignClass) (_element h) d
         else d)
      ALIGN_TYPES d in
  (h, d).

Definition render (h : t) : Dom.ref := _element h.

(** [save(blockContent)]: [blockContent] is the element as the host
    holds it at the time of the call. *)
Definition save (h : t) (blockContent : Dom.node) : saved_t :=
  Saved (Dom.innerHTML blockContent)
        (id (currentLevel (_config h) (_data h)))
        (currentAlignType (_config h) (_data h)).

Definition toUpperCase (c : ascii) : ascii :=
  let n := nat_of_ascii c in
  if ((97 <=? n) && (n <=? 122))%nat then ascii_of_nat (n - 32) else c.

(** [name.charAt(0).toUpperCase() + name.slice(1)]. *)
Definition capitalize (name : string) : string :=
  match name with
  | String c rest => String (toUpperCase c) rest
  | EmptyString => EmptyString
  end.

(** [_getFormattedLabel(name, prefix)]; without a prefix the class only
    passes alignment names, which are strings. *)
Definition _getFormattedLabel (i18n_t : string -> string)
    (name prefix : value) : string :=
  if truthy prefix then i18n_t (to_string prefix +:+ to_string name)
  else i18n_t (capitalize (to_string name)).

(** The closures handed to the host as [onActivate]. *)
Inductive callback : Type :=
  | call_setHeaderLevel (levelId : Z)
  | call_setAlignType (align : string).

Record setting : Type := Setting {
  setting_icon : icon_t;
  label : string;
  onActivate : callback;
  isActive : bool;
  closeOnActivate : bool;
  toggle : string
}.

Definition _createSetting (icon : icon_t) (label : string)
    (onActivate : callback) (isActive : bool) (group : string) : setting :=
  Setting icon label onActivate isActive true group.

Definition renderSettings (h : t) : list setting :=
  let headerTypes :=
    map (fun level =>
           _createSetting
             (icon level)
             (_getFormattedLabel (_api h) (VNum (Int (id level)))
                                 (VStr "Heading "))
             (call_setHeaderLevel (id level))
             (Z.eqb (id level) (id (currentLevel (_config h) (_data h))))
             "heading")
        HEADER_LEVELS in
  let alignTypes :=
    map (fun a =>
           _createSetting
             (alignmentIcon a)
             (_getFormattedLabel (_api h) (VStr a) VUndefined)
             (call_setAlignType a)
             (String.eqb a (currentAlignType (_config h) (_data h)))
             "align")
        ALIGN_TYPES in
  headerTypes ++ alignTypes.

(** Running a menu entry's closure. *)
Definition activate (c : callback) (h : t) (d : Dom.store)
  : result (t * Dom.store) :=
  match c with
  | call_setHeaderLevel levelId => _setHeaderLevel (VNum (Int levelId)) h d
  | call_setAlignType a => mret (_setAlignType (VStr a) h d)
  end.

(** [onPaste(event)]; [headerTag] is [event.detail.data], the pasted
    element.  Every branch of the [switch] assigns [level], so its
    initial value [this.currentLevel.id] is never used. *)
Definition onPaste (headerTag : Dom.node) (h : t) (d : Dom.store)
  : result (t * Dom.store) :=
  let level :=
    let tagName := Dom.tagName headerTag in
    if String.eqb tagName "H1" then 1
    else if String.eqb tagName "H2" then 2
    else if String.eqb tagName "H3" then 3
    else if String.eqb tagName "H4" then 4
    else if String.eqb tagName "H5" then 5
    else if String.eqb tagName "H6" then 6
    else id (userDefaultLevel (_config h)) in
  dat ← _normalizeData (_config h)
          (VObj [ ("text", VStr (Dom.innerHTML headerTag));
                  ("level", VNum (Int level));
                  ("align", VStr (currentAlignType (_config h) (_data h))) ]);
  let h := with_data dat h in
  let '(el, d) := _getElement (_api h) (_readOnly h) (_config h) (_data h) d in
  mret (with_element el h, d).

(** [merge(data)]: the right-hand side parses as
    [(this._element.innerHTML + data.text) || '']. *)
Definition merge (data : value) (h : t) (d : Dom.store) : result Dom.store :=
  let current := innerHTML_of (_element h) d in
  data_text ← get data "text";
  let markup := or (VStr (concat current data_text)) (VStr "") in
  mret (alter (Dom.set_innerHTML (to_string markup)) (_element h) d).

(** [validate(savedData)]: [savedData.text.trim() !== ''].  Reading
    [trim] off [undefined] or [null], or calling it on a value that has
    no such method (a number, a boolean, a plain object), raises a
    [TypeError]. *)
Definition validate (savedData : value) : result bool :=
  savedData_text ← get savedData "text";
  match savedData_text with
  | VStr s => mret (negb (String.eqb (trim s) ""))
  | _ => Throw TypeError
  end.

(** *** Static descriptors *)

(** [Header.pasteConfig.tags]. *)
Definition pasteConfig_tags : list string :=
  ["H1"; "H2"; "H3"; "H4"; "H5"; "H6"].

(** [Header.conversionConfig]. *)
Record conversion : Type := Conversion {
  conversion_export : string;
  conversion_import : string
}.

Definition conversionConfig : conversion := Conversion "text" "text".

End Header.

(* ===================================================================== *)
(** ** Concrete configurations, documents and instances                    *)
(* ===================================================================== *)

Module Scenario.
Import Js Header.

(** The identity translation. *)
Definition i18n_id (s : string) : string := s.

(** [{ levels: [2, 3], alignTypes: ['center'] }]. *)
Definition cfg_h2_h3_center : config :=
  Config "" (Some [VNum (Int 2); VNum (Int 3)]) VUndefined
         (Some [VStr "center"]) VUndefined.

(** [{ levels: [1, 2, 3], defaultLevel: '2' }]. *)
Definition cfg_default_2 : config :=
  Config "" (Some [VNum (Int 1); VNum (Int 2); VNum (Int 3)]) (VStr "2")
         None VUndefined.

(** [{ levels: [2, 3], defaultLevel: 5 }]. *)
Definition cfg_default_missing : config :=
  Config "" (Some [VNum (Int 2); VNum (Int 3)]) (VNum (Int 5)) None VUndefined.

(** A heading [<h1 class="ce-header ce-header-align-left">Foo</h1>] at
    reference 1, inside a host container at reference 0. *)
Definition heading_foo (parent : option Dom.ref) : Dom.node :=
  Dom.Node "H1" "Foo" ["ce-header"; "ce-header-align-left"] true "" parent [].

Definition doc_attached : Dom.store :=
  <[1%nat := heading_foo (Some 0%nat)]>
    {[ 0%nat := Dom.Node "DIV" "" [] false "" None [1%nat] ]}.

Definition doc_detached : Dom.store :=
  {[ 1%nat := heading_foo None ]}.

(** The instance tracking that heading, under a given configuration. *)
Definition header_foo (cfg : config) : t :=
  Instance i18n_id (VBool false) cfg (Data (VStr "Foo") 1 (VStr "left")) 1%nat.

(** The same heading with a class list holding two alignment classes. *)
Definition doc_two_alignments : Dom.store :=
  {[ 1%nat := Dom.Node "H1" "Foo"
                 ["ce-header-align-justify"; "ce-header";
                  "ce-header-align-left"] true "" None [] ]}.

(** A pasted [<h2>Hello</h2>]. *)
Definition pasted_h2 : Dom.node :=
  Dom.Node "H2" "Hello" [] false "" None [].

(** The instance of [header_foo] with stored alignment [right]. *)
Definition header_right : t :=
  Instance i18n_id (VBool false) empty_config
           (Data (VStr "Foo") 1 (VStr "right")) 1%nat.

(** [{ level: 5, align: 'left' }] after normalisation. *)
Definition data_h5_left : data_t := Data (VStr "Foo") 5 (VStr "left").

End Scenario.

(* ===================================================================== *)
(** ** Vocabulary for the statements                                       *)
(* ===================================================================== *)

Module Observe.
Import Js Header.

(** The value [data.k] has once [_normalizeData] has replaced a
    non-object by [{}]. *)
Definition field (data : value) (k : string) : value :=
  match data with
  | VObj props => default VUndefined (assoc k props)
  | _ => VUndefined
  end.

(** The tracked element's markup after [merge(data)]. *)
Definition markup_after_merge (data : value) (h : t) (d : Dom.store)
  : result string :=
  d' ← merge data h d; mret (innerHTML_of (_element h) d').

(** [save] applied to the tracked element as it is in the document. *)
Definition save_tracked (h : t) (d : Dom.store) : option saved_t :=
  save h <$> d !! _element h.

(** The element [_getElement()] builds, before it is put in the store;
    its markup is the string the method assigned to [innerHTML]. *)
Definition built (i18n_t : string -> string) (readOnly : value)
    (cfg : config) (dat : data_t) : Dom.node :=
  Dom.Node (tag (currentLevel cfg dat))
           (to_string (or (text dat) (VStr "")))
           [ CSS_wrapper;
             CSS_wrapperForAlignment (VStr (currentAlignType cfg dat)) ]
           (negb (truthy readOnly))
           (i18n_t (to_string (or (VStr (placeholder cfg)) (VStr ""))))
           None [].

(** One turn of the [forEach] of [_setAlignType], on the element. *)
Definition align_step (newAlign : value) (n : Dom.node) (a : string)
  : Dom.node :=
  let alignClass := CSS_wrapperForAlignment (VStr a) in
  let n := Dom.classList_remove alignClass n in
  if strict_eq newAlign (VStr a) then Dom.classList_add alignClass n else n.

(** [this._data] once [_setHeaderLevel(newLevel)] has stored the level. *)
Definition data_with_level (newLevel : value) (h : t) : data_t :=
  Data (text (_data h))
       (parseInt_or newLevel (id (userDefaultLevel (_config h))))
       (align (_data h)).

(** The reference held in [this._element] points to a node of the
    document. *)
Definition tracked (h : t) (d : Dom.store) : Prop :=
  is_Some (d !! _element h).

(** The persisted record as the value handed back to the constructor. *)
Definition saved_to_value (r : saved_t) : value :=
  VObj [ ("text", VStr (saved_text r));
         ("level", VNum (Int (saved_level r)));
         ("align", VStr (saved_align r)) ].

(** A string made of white space characters only. *)
Inductive blank : string -> Prop :=
  | blank_empty : blank ""
  | blank_more (w s : string) :
      In w whitespace -> blank s -> blank (w +:+ s).

(** [validate] applied to what [save] returns. *)
Definition validate_saved (r : saved_t) : result bool :=
  validate (saved_to_value r).

(** [c] is the class of one of the four alignment names. *)
Definition is_alignment_class (c : string) : bool :=
  existsb (fun a => String.eqb (CSS_wrapperForAlignment (VStr a)) c)
          ALIGN_TYPES.

(** A class list without its alignment classes. *)
Definition without_alignment_classes (cs : list string) : list string :=
  List.filter (fun c => negb (is_alignment_class c)) cs.

(** The tracked element is a node of the document and, when it has a
    parent, that parent is a node that lists it among its children. *)
Definition consistent (h : t) (d : Dom.store) : Prop :=
  exists el,
    d !! _element h = Some el /\
    match Dom.parentNode el with
    | Some parent =>
        exists p, d !! parent = Some p /\ In (_element h) (Dom.childNodes p)
    | None => True
    end.

(** The tracked element shows the state: its tag is the tag of the
    current level, and among the four alignment classes it carries the
    class of the current alignment and no other. *)
Definition in_sync (h : t) (d : Dom.store) : Prop :=
  exists el,
    d !! _element h = Some el /\
    Dom.tagName el = tag (currentLevel (_config h) (_data h)) /\
    forall a, In a ALIGN_TYPES ->
      (In (CSS_wrapperForAlignment (VStr a)) (Dom.classList el) <->
       a = currentAlignType (_config h) (_data h)).

(** [this._data] as the value [_normalizeData] would be handed. *)
Definition data_to_value (dat : data_t) : value :=
  VObj [ ("text", text dat);
         ("level", VNum (Int (level dat)));
         ("align", align dat) ].

End Observe.

(* ===================================================================== *)
(** ** Properties of the built-ins                                         *)
(* ===================================================================== *)

Import Js Header Observe Scenario.

Section BuiltIns.

Lemma strict_eq_num (y : value) (z : Z) :
  strict_eq y (VNum (Int z)) = true <-> y = VNum (Int z).
Proof.
  destruct y as [| |b|[|x]|s|ps]; simpl; split; try discriminate.
  - intros H. apply Z.eqb_eq in H. by subst.
  - intros [= ->]. apply Z.eqb_refl.
Qed.

Lemma strict_eq_str (y : value) (s : string) :
  strict_eq y (VStr s) = true <-> y = VStr s.
Proof.
  destruct y as [| |b|[|x]|s'|ps]; simpl; split; try discriminate.
  - intros H. apply String.eqb_eq in H. by subst.
  - intros [= ->]. apply String.eqb_refl.
Qed.

Lemma strict_eq_str_l (s : string) (y : value) :
  strict_eq (VStr s) y = true <-> y = VStr s.
Proof.
  destruct y as [| |b|[|x]|s'|ps]; simpl; split; try discriminate.
  - intros H. apply String.eqb_eq in H. by subst.
  - intros [= ->]. apply String.eqb_refl.
Qed.

(** [includes] is membership for a number or a string: a string never
    matches a number, whatever it spells. *)
Lemma includes_num (arr : list value) (z : Z) :
  includes arr (VNum (Int z)) = true <-> In (VNum (Int z)) arr.
Proof.
  unfold includes. rewrite existsb_exists. split.
  - intros (y & Hin & Hy).
    assert (y = VNum (Int z)) as ->; [|done].
    apply strict_eq_num. by destruct y as [| |b|[|x]|s|ps].
  - intros Hin. exists (VNum (Int z)). split; [done|].
    simpl. apply Z.eqb_refl.
Qed.

Lemma includes_str (arr : list value) (s : string) :
  includes arr (VStr s) = true <-> In (VStr s) arr.
Proof.
  unfold includes. rewrite existsb_exists. split.
  - intros (y & Hin & Hy).
    assert (y = VStr s) as ->; [|done].
    apply strict_eq_str. by destruct y as [| |b|[|x]|s'|ps].
  - intros Hin. exists (VStr s). split; [done|].
    simpl. apply String.eqb_refl.
Qed.

(** A falsy value never parses to a non-zero integer. *)
Lemma parseInt_falsy (v : value) :
  truthy v = false -> parseInt v = NaN \/ parseInt v = Int 0.
Proof.
  destruct v as [| |[|]|[|z]|s|ps]; simpl; try discriminate; auto.
  - intros H. apply negb_false_iff, Z.eqb_eq in H. subst. by right.
  - intros H. apply negb_false_iff, String.eqb_eq in H. subst. by left.
Qed.

(** Reading back the decimal digits of a number, most significant
    first, with an accumulator. *)
Lemma read_digits_acc (d : Decimal.uint) (acc : positive) :
  read_digits (NilEmpty.string_of_uint d) (Some (Z.pos acc)) =
  Some (Z.pos (Pos.of_uint_acc d acc)).
Proof.
  revert acc. induction d as [|d IH|d IH|d IH|d IH|d IH|d IH|d IH|d IH|d IH|d IH];
    intros acc; [reflexivity|..];
    cbn [NilEmpty.string_of_uint read_digits Pos.of_uint_acc];
    (change (digit_of _) with (Some 0) || change (digit_of _) with (Some 1)
     || change (digit_of _) with (Some 2) || change (digit_of _) with (Some 3)
     || change (digit_of _) with (Some 4) || change (digit_of _) with (Some 5)
     || change (digit_of _) with (Some 6) || change (digit_of _) with (Some 7)
     || change (digit_of _) with (Some 8) || change (digit_of _) with (Some 9));
    cbn [default from_option Datatypes.id]; rewrite <- IH; do 2 f_equal; lia.
Qed.

Lemma read_digits_uint (d : Decimal.uint) :
  read_digits (NilEmpty.string_of_uint d) (Some 0) =
  Some (Z.of_N (Pos.of_uint d)).
Proof.
  induction d as [|d IH|d IH|d IH|d IH|d IH|d IH|d IH|d IH|d IH|d IH];
    [reflexivity| exact IH |..];
    cbn [NilEmpty.string_of_uint read_digits Pos.of_uint Z.of_N];
    rewrite <- read_digits_acc; reflexivity.
Qed.

Lemma nearest_double_small (z : Z) :
  Z.abs z < 2 ^ 53 -> nearest_double z = z.
Proof.
  intros Hz. unfold nearest_double.
  by destruct (Z.ltb_spec (Z.abs z) (2 ^ 53)); [|lia].
Qed.

Lemma number_to_string_small (z : Z) :
  Z.abs z < 2 ^ 53 -> number_to_string z = string_of_Z z.
Proof.
  intros Hz. unfold number_to_string. rewrite nearest_double_small by done.
  by destruct (Z.ltb_spec (Z.abs z) (2 ^ 53)); [|lia].
Qed.

Lemma trimStart_no_whitespace (c : ascii) (s : string) :
  strip_whitespace (String c s) = None -> trimStart (String c s) = String c s.
Proof.
  intros H. unfold trimStart. cbn [String.length trimStart_loop].
  by rewrite H.
Qed.

Lemma parse_int_string_minus (s : string) :
  parse_int_string (String "-" s) =
  match read_digits s None with
  | None => NaN
  | Some n => Int (nearest_double (- n))
  end.
Proof.
  unfold parse_int_string. by rewrite trimStart_no_whitespace.
Qed.

Lemma read_digits_start (d : Decimal.uint) :
  d <> Decimal.Nil ->
  read_digits (NilEmpty.string_of_uint d) None =
  Some (Z.of_N (Pos.of_uint d)).
Proof.
  intros Hd. rewrite <- read_digits_uint. by destruct d.
Qed.

Lemma parse_int_string_uint (d : Decimal.uint) :
  d <> Decimal.Nil ->
  parse_int_string (NilEmpty.string_of_uint d) =
  Int (nearest_double (Z.of_N (Pos.of_uint d))).
Proof.
  intros Hd. pose proof (read_digits_start d Hd) as H.
  destruct d; [done|..]; cbn [NilEmpty.string_of_uint] in *;
    unfold parse_int_string;
    (rewrite trimStart_no_whitespace by reflexivity); by rewrite H.
Qed.

(** [parseInt] of an integer below 2^53 in absolute value is that
    integer: its string form is an optional minus sign followed by its
    decimal digits.  (From 10^21 on the string form is in exponent
    notation and [parseInt] reads the digits before the point only.) *)
Lemma parseInt_number (z : Z) :
  Z.abs z < 2 ^ 53 -> parseInt (VNum (Int z)) = Int z.
Proof.
  intros Hz. unfold parseInt, to_string.
  rewrite number_to_string_small by done. unfold string_of_Z.
  destruct z as [|p|p]; [reflexivity|..]; cbn [Z.to_int NilZero.string_of_int];
    pose proof (DecimalPos.Unsigned.to_uint_nonnil p) as Hnil;
    pose proof (DecimalPos.Unsigned.of_to p) as Hof;
    assert (NilZero.string_of_uint (Pos.to_uint p)
            = NilEmpty.string_of_uint (Pos.to_uint p)) as ->
      by (by destruct (Pos.to_uint p)).
  - rewrite parse_int_string_uint, Hof by done.
    by rewrite nearest_double_small.
  - rewrite parse_int_string_minus, read_digits_start, Hof by done.
    by rewrite nearest_double_small.
Qed.

(** The language's own answers on inputs where a digit-by-digit reading
    would differ: white space beyond ASCII is skipped, a number from
    10^21 on is read through its exponent form, and digits beyond 2^53
    are rounded to the nearest double. *)
Lemma parseInt_follows_the_language :
  parseInt (VStr (bytes [194; 160]%nat +:+ "2")) = Int 2 /\
  parseInt (VNum (Int (2 * 10 ^ 21))) = Int 2 /\
  parseInt (VStr "1000000000000000000000") = Int (10 ^ 21) /\
  parseInt (VNum (Int (10 ^ 21))) = Int 1 /\
  parseInt (VStr "9007199254740993") = Int 9007199254740992.
Proof. by vm_compute. Qed.

Lemma or_truthy (a b : value) : truthy a = true -> or a b = a.
Proof. unfold or. by intros ->. Qed.

Lemma or_falsy (a b : value) : truthy a = false -> or a b = b.
Proof. unfold or. by intros ->. Qed.

Lemma truthy_VStr (s : string) : truthy (VStr s) = true <-> s <> "".
Proof.
  simpl. rewrite negb_true_iff. split.
  - intros H ->. by rewrite String.eqb_refl in H.
  - intros H. by apply String.eqb_neq.
Qed.

End BuiltIns.

(* ===================================================================== *)
(** ** What [innerHTML] reads back                                         *)
(* ===================================================================== *)

Section Markup.

Lemma text_only_cons_false (c : ascii) (s : string) :
  Dom.text_only s = false -> Dom.text_only (String c s) = false.
Proof. intros H. cbn [Dom.text_only]. rewrite H. apply andb_false_r. Qed.

(** A serialised text node either needed no escaping or holds a
    character reference. *)
Lemma escape_fixed_or_reference (s : string) :
  Dom.escape s = s \/ Dom.text_only (Dom.escape s) = false.
Proof.
  induction s as [|c s IH]; [by left|].
  cbn [Dom.escape].
  destruct (Ascii.eqb c "&"); [by right|].
  destruct (Ascii.eqb c "<"); [by right|].
  destruct (Ascii.eqb c ">"); [by right|].
  destruct IH as [->|IH]; [by left|].
  right. by apply text_only_cons_false.
Qed.

(** Markup that was read from an element reads back unchanged. *)
Lemma reads_as_idempotent (s : string) :
  Dom.reads_as (Dom.reads_as s) = Dom.reads_as s.
Proof.
  unfold Dom.reads_as at 2.
  destruct (Dom.text_only s) eqn:Hs.
  - destruct (escape_fixed_or_reference s) as [->|H].
    + unfold Dom.reads_as. by rewrite Hs.
    + unfold Dom.reads_as. by rewrite H, Hs.
  - unfold Dom.reads_as. by rewrite Hs.
Qed.

Lemma innerHTML_reads_as_itself (n : Dom.node) :
  Dom.reads_as (Dom.innerHTML n) = Dom.innerHTML n.
Proof. apply reads_as_idempotent. Qed.

Lemma reads_as_text_only (s : string) :
  Dom.text_only s = true -> Dom.reads_as s = Dom.escape s.
Proof. unfold Dom.reads_as. by intros ->. Qed.

Lemma inert_spec (s : string) :
  Dom.inert s = true <-> Dom.text_only s = true /\ Dom.escape s = s.
Proof.
  unfold Dom.inert. rewrite andb_true_iff, String.eqb_eq. tauto.
Qed.

Lemma reads_as_inert (s : string) :
  Dom.inert s = true -> Dom.reads_as s = s.
Proof.
  intros [Hs He]%inert_spec. by rewrite reads_as_text_only.
Qed.

Lemma append_String (c : ascii) (a b : string) :
  String c a +:+ b = String c (a +:+ b).
Proof. reflexivity. Qed.

Lemma escape_app (a b : string) :
  Dom.escape (a +:+ b) = Dom.escape a +:+ Dom.escape b.
Proof.
  induction a as [|c a IH]; [reflexivity|].
  rewrite append_String. cbn [Dom.escape]. rewrite IH.
  by destruct (Ascii.eqb c "&"), (Ascii.eqb c "<"), (Ascii.eqb c ">").
Qed.

Lemma text_only_app_l (a b : string) :
  Dom.text_only (a +:+ b) = true -> Dom.text_only a = true.
Proof.
  induction a as [|c a IH]; [done|].
  rewrite append_String. cbn [Dom.text_only].
  rewrite !andb_true_iff.
  intros (((((H1 & H2) & H3) & H4) & H5) & H6).
  repeat split; try done; [| | |by apply IH];
    destruct a; try done; by rewrite andb_false_r.
Qed.

(** Character data that needs no escaping, appended to markup that
    reads back unchanged, gives markup that reads back unchanged. *)
Lemma reads_as_app_inert (m s : string) :
  Dom.reads_as m = m -> Dom.inert s = true ->
  Dom.reads_as (m +:+ s) = m +:+ s.
Proof.
  intros Hm [Hs He]%inert_spec. unfold Dom.reads_as.
  destruct (Dom.text_only (m +:+ s)) eqn:Hms; [|done].
  rewrite escape_app, He. f_equal.
  apply text_only_app_l in Hms. by rewrite <- (reads_as_text_only m), Hm.
Qed.

End Markup.

(* ===================================================================== *)
(** ** The available levels and alignment types                            *)
(* ===================================================================== *)

Section Available.

Lemma filter_sublist {A : Type} (f : A -> bool) (l : list A) :
  List.filter f l `sublist_of` l.
Proof.
  induction l as [|x l IH]; simpl; [constructor|].
  destruct (f x); by constructor.
Qed.

Lemma HEADER_LEVELS_id_inj (l l' : level_t) :
  In l HEADER_LEVELS -> In l' HEADER_LEVELS -> id l = id l' -> l = l'.
Proof.
  unfold HEADER_LEVELS. simpl.
  intros Hl Hl' Hid.
  repeat (destruct Hl as [<-|Hl]; [|]); try done;
    repeat (destruct Hl' as [<-|Hl']; [|]); try done; simpl in Hid; lia.
Qed.

Lemma availableLevels_In (cfg : config) (l : level_t) :
  In l (availableLevels cfg) <->
  In l HEADER_LEVELS /\
  match levels cfg with
  | Some allowed => In (VNum (Int (id l))) allowed
  | None => True
  end.
Proof.
  unfold availableLevels. destruct (levels cfg) as [allowed|]; [|tauto].
  rewrite filter_In. by rewrite includes_num.
Qed.

Lemma availableAlignTypes_In (cfg : config) (a : string) :
  In a (availableAlignTypes cfg) <->
  In a ALIGN_TYPES /\
  match alignTypes cfg with
  | Some allowed => In (VStr a) allowed
  | None => True
  end.
Proof.
  unfold availableAlignTypes. destruct (alignTypes cfg) as [allowed|]; [|tauto].
  rewrite filter_In. by rewrite includes_str.
Qed.

Lemma availableLevels_built_in (cfg : config) (l : level_t) :
  In l (availableLevels cfg) -> In l HEADER_LEVELS.
Proof. intros H. by apply availableLevels_In in H as [? _]. Qed.

Lemma availableAlignTypes_built_in (cfg : config) (a : string) :
  In a (availableAlignTypes cfg) -> In a ALIGN_TYPES.
Proof. intros H. by apply availableAlignTypes_In in H as [? _]. Qed.

(** C7: [availableLevels] is the built-in list of six level descriptors
    restricted to the ids that occur in the configured [levels] array,
    and [availableAlignTypes] is the built-in list of four names
    restricted to the members of the configured [alignTypes] array; both
    are sub-sequences of the built-in lists, so the built-in order is
    kept; when an allow-list is omitted the whole built-in list is
    returned. *)
Theorem available_restricts_built_in (cfg : config) :
  match levels cfg with
  | Some allowed =>
      availableLevels cfg `sublist_of` HEADER_LEVELS /\
      forall l, In l (availableLevels cfg) <->
                In l HEADER_LEVELS /\ In (VNum (Int (id l))) allowed
  | None => availableLevels cfg = HEADER_LEVELS
  end /\
  match alignTypes cfg with
  | Some allowed =>
      availableAlignTypes cfg `sublist_of` ALIGN_TYPES /\
      forall a, In a (availableAlignTypes cfg) <->
                In a ALIGN_TYPES /\ In (VStr a) allowed
  | None => availableAlignTypes cfg = ALIGN_TYPES
  end.
Proof.
  split.
  - pose proof (availableLevels_In cfg) as HIn.
    unfold availableLevels in *.
    destruct (levels cfg) as [allowed|]; [|done].
    split; [apply filter_sublist | exact HIn].
  - pose proof (availableAlignTypes_In cfg) as HIn.
    unfold availableAlignTypes in *.
    destruct (alignTypes cfg) as [allowed|]; [|done].
    split; [apply filter_sublist | exact HIn].
Qed.

End Available.

(* ===================================================================== *)
(** ** Resolving the defaults and the current level and alignment          *)
(* ===================================================================== *)

Section Resolution.

Lemma HEADER_LEVELS_id_range (l : level_t) :
  In l HEADER_LEVELS -> 1 <= id l <= 6.
Proof.
  unfold HEADER_LEVELS. simpl.
  intros H. repeat (destruct H as [<-|H]; [simpl; lia|]). done.
Qed.

Lemma ALIGN_TYPES_nonempty (a : string) : In a ALIGN_TYPES -> a <> "".
Proof.
  unfold ALIGN_TYPES. simpl.
  intros H. repeat (destruct H as [<-|H]; [done|]). done.
Qed.

(** [find] over the available levels by id returns the level with that
    id, if it is available. *)
Lemma find_level_by_id (cfg : config) (z : Z) (l : level_t) :
  In l (availableLevels cfg) -> id l = z ->
  List.find (fun x => Z.eqb (id x) z) (availableLevels cfg) = Some l.
Proof.
  intros Hin Hid.
  destruct (List.find _ _) as [x|] eqn:Hfind.
  - apply find_some in Hfind as [Hx Heq]. apply Z.eqb_eq in Heq.
    f_equal. apply HEADER_LEVELS_id_inj; eauto using availableLevels_built_in.
    lia.
  - eapply find_none in Hfind; [|exact Hin]. simpl in Hfind.
    apply Z.eqb_neq in Hfind. done.
Qed.

Lemma find_align_by_name (cfg : config) (v : value) (a : string) :
  In a (availableAlignTypes cfg) -> v = VStr a ->
  List.find (fun x => strict_eq (VStr x) v) (availableAlignTypes cfg) = Some a.
Proof.
  intros Hin ->.
  destruct (List.find _ _) as [x|] eqn:Hfind.
  - apply find_some in Hfind as [Hx Heq].
    apply strict_eq_str_l in Heq. by injection Heq as ->.
  - eapply find_none in Hfind; [|exact Hin]. simpl in Hfind.
    by rewrite String.eqb_refl in Hfind.
Qed.

(** C5: when an available level has the id that [defaultLevel] parses
    to, [userDefaultLevel] is that level (and nothing is logged);
    otherwise it is level 1 with tag H1, and the warning is written
    exactly when a truthy [defaultLevel] was configured, in particular
    whenever [defaultLevel] parses to a non-zero integer that is not the
    id of an available level.  The getter is a total function: it raises
    nothing. *)
Theorem userDefaultLevel_resolution (cfg : config) :
  (forall l, In l (availableLevels cfg) ->
             parseInt (defaultLevel cfg) = Int (id l) ->
             userDefaultLevel_run cfg = (l, [])) /\
  ((forall l, In l (availableLevels cfg) ->
              parseInt (defaultLevel cfg) <> Int (id l)) ->
   userDefaultLevel cfg = Level 1 "H1" h1Icon /\
   snd (userDefaultLevel_run cfg) =
     (if truthy (defaultLevel cfg) then [DefaultLevelNotFound] else []) /\
   (forall z, parseInt (defaultLevel cfg) = Int z -> z <> 0 ->
              snd (userDefaultLevel_run cfg) = [DefaultLevelNotFound])).
Proof.
  unfold userDefaultLevel, userDefaultLevel_run.
  remember (parseInt (defaultLevel cfg)) as p eqn:Hp.
  split.
  - intros l Hin Hparse.
    pose proof (HEADER_LEVELS_id_range l (availableLevels_built_in _ _ Hin)).
    destruct (truthy (defaultLevel cfg)) eqn:Htruthy.
    + subst p. rewrite Hparse. simpl.
      by rewrite (find_level_by_id cfg (id l) l).
    + apply parseInt_falsy in Htruthy as [H0|H0];
        rewrite <- Hp, Hparse in H0; [done|].
      injection H0 as H0. lia.
  - intros Hnone.
    destruct (truthy (defaultLevel cfg)) eqn:Htruthy.
    + destruct (List.find _ _) as [x|] eqn:Hfind; [|done].
      apply find_some in Hfind as [Hx Heq].
      exfalso. apply (Hnone x Hx).
      destruct p as [|z]; simpl in Heq; [done|].
      apply Z.eqb_eq in Heq. by subst z.
    + split; [done|]. split; [done|]. intros z Hz Hnz.
      apply parseInt_falsy in Htruthy as [H0|H0];
        rewrite <- Hp, Hz in H0; [done|].
      by injection H0.
Qed.

(** C5 at two configurations: [defaultLevel: '2'] with levels 1..3
    resolves to H2; [defaultLevel: 5] with levels 2 and 3 resolves to H1
    and logs the warning. *)
Lemma userDefaultLevel_resolution_witness :
  userDefaultLevel_run cfg_default_2 = (Level 2 "H2" h2Icon, []) /\
  userDefaultLevel cfg_default_missing = Level 1 "H1" h1Icon /\
  snd (userDefaultLevel_run cfg_default_missing) = [DefaultLevelNotFound].
Proof.
  split.
  - apply (proj1 (userDefaultLevel_resolution cfg_default_2)).
    + vm_compute. right. left. reflexivity.
    + reflexivity.
  - destruct (proj2 (userDefaultLevel_resolution cfg_default_missing))
      as (Hlevel & Hlog & _).
    + intros l Hl. vm_compute in Hl.
      destruct Hl as [<-|[<-|[]]]; vm_compute; discriminate.
    + split; [exact Hlevel | exact Hlog].
Defined.

(** The default level is read through [parseInt] as the language
    defines it: under [{ levels: [1, 2, 3] }] a [defaultLevel] spelled
    with a leading no-break space, or given as the number 2 * 10^21
    (whose string form is "2e+21"), resolves to H2 and logs nothing. *)
Lemma userDefaultLevel_reads_as_parseInt :
  userDefaultLevel_run
    (Config "" (Some [VNum (Int 1); VNum (Int 2); VNum (Int 3)])
            (VStr (bytes [194; 160]%nat +:+ "2")) None VUndefined)
  = (Level 2 "H2" h2Icon, []) /\
  userDefaultLevel_run
    (Config "" (Some [VNum (Int 1); VNum (Int 2); VNum (Int 3)])
            (VNum (Int (2 * 10 ^ 21))) None VUndefined)
  = (Level 2 "H2" h2Icon, []).
Proof. by vm_compute. Qed.

(** X28: the alignment counterpart.  When [defaultAlignType] is the
    name of an available alignment, [userDefaultAlignType] is that name
    and nothing is logged; otherwise it is [left], and the warning is
    written exactly when a truthy [defaultAlignType] was configured. *)
Lemma userDefaultAlignType_resolution (cfg : config) :
  (forall a, In a (availableAlignTypes cfg) ->
             defaultAlignType cfg = VStr a ->
             userDefaultAlignType_run cfg = (a, [])) /\
  ((forall a, In a (availableAlignTypes cfg) ->
              defaultAlignType cfg <> VStr a) ->
   userDefaultAlignType cfg = "left" /\
   snd (userDefaultAlignType_run cfg) =
     if truthy (defaultAlignType cfg) then [DefaultAlignTypeInvalid] else []).
Proof.
  unfold userDefaultAlignType, userDefaultAlignType_run. split.
  - intros a Hin Hdef.
    pose proof (ALIGN_TYPES_nonempty a (availableAlignTypes_built_in _ _ Hin)) as Hne.
    rewrite (find_align_by_name cfg _ a Hin Hdef).
    apply truthy_VStr in Hne. rewrite Hne. rewrite Hdef. by rewrite Hne.
  - intros Hnone.
    destruct (truthy (defaultAlignType cfg)); [|done].
    destruct (List.find _ _) as [x|] eqn:Hfind; [|done].
    apply find_some in Hfind as [Hx Heq].
    apply strict_eq_str_l in Heq. exfalso. by apply (Hnone x Hx).
Qed.

Lemma userDefaultLevel_cases (cfg : config) :
  In (userDefaultLevel cfg) (availableLevels cfg) \/
  userDefaultLevel cfg = DEFAULT_HEADER_LEVEL.
Proof.
  unfold userDefaultLevel, userDefaultLevel_run.
  destruct (truthy _); [|by right].
  destruct (List.find _ _) as [x|] eqn:Hfind; [|by right].
  left. by apply find_some in Hfind as [? _].
Qed.

Lemma userDefaultAlignType_cases (cfg : config) :
  In (userDefaultAlignType cfg) (availableAlignTypes cfg) \/
  userDefaultAlignType cfg = DEFAULT_ALIGN_TYPE.
Proof.
  unfold userDefaultAlignType, userDefaultAlignType_run.
  destruct (truthy _); [|by right].
  destruct (List.find _ _) as [x|] eqn:Hfind; [|by right].
  destruct (truthy (VStr x)); [|by right].
  left. by apply find_some in Hfind as [? _].
Qed.

Lemma userDefaultLevel_id_range (cfg : config) :
  1 <= id (userDefaultLevel cfg) <= 6.
Proof.
  destruct (userDefaultLevel_cases cfg) as [H| ->]; [|simpl; lia].
  eauto using HEADER_LEVELS_id_range, availableLevels_built_in.
Qed.

Lemma userDefaultAlignType_nonempty (cfg : config) :
  userDefaultAlignType cfg <> "".
Proof.
  destruct (userDefaultAlignType_cases cfg) as [H| ->]; [|done].
  eauto using ALIGN_TYPES_nonempty, availableAlignTypes_built_in.
Qed.

End Resolution.

Section Current.

Lemma currentLevel_cases (cfg : config) (dat : data_t) :
  (In (currentLevel cfg dat) (availableLevels cfg) /\
   id (currentLevel cfg dat) = level dat) \/
  ((forall l, In l (availableLevels cfg) -> id l <> level dat) /\
   currentLevel cfg dat = userDefaultLevel cfg).
Proof.
  unfold currentLevel.
  destruct (List.find _ _) as [x|] eqn:Hfind.
  - left. apply find_some in Hfind as [Hx Heq]. by apply Z.eqb_eq in Heq.
  - right. split; [|done]. intros l Hl.
    eapply find_none in Hfind; [|exact Hl]. by apply Z.eqb_neq in Hfind.
Qed.

Lemma currentAlignType_cases (cfg : config) (dat : data_t) :
  (In (currentAlignType cfg dat) (availableAlignTypes cfg) /\
   align dat = VStr (currentAlignType cfg dat)) \/
  ((forall a, In a (availableAlignTypes cfg) -> align dat <> VStr a) /\
   currentAlignType cfg dat = userDefaultAlignType cfg).
Proof.
  unfold currentAlignType.
  destruct (List.find _ _) as [x|] eqn:Hfind.
  - left. apply find_some in Hfind as [Hx Heq].
    apply strict_eq_str_l in Heq.
    pose proof (ALIGN_TYPES_nonempty x (availableAlignTypes_built_in _ _ Hx)) as Hne.
    apply truthy_VStr in Hne. by rewrite Hne.
  - right. split; [|done]. intros a Ha Heq.
    eapply find_none in Hfind; [|exact Ha]. simpl in Hfind.
    rewrite Heq in Hfind. simpl in Hfind. by rewrite String.eqb_refl in Hfind.
Qed.

Lemma currentLevel_available (cfg : config) (dat : data_t) (l : level_t) :
  In l (availableLevels cfg) -> id l = level dat -> currentLevel cfg dat = l.
Proof.
  intros Hin Hid. unfold currentLevel.
  by rewrite (find_level_by_id cfg (level dat) l).
Qed.

Lemma currentAlignType_available (cfg : config) (dat : data_t) (a : string) :
  In a (availableAlignTypes cfg) -> align dat = VStr a ->
  currentAlignType cfg dat = a.
Proof.
  intros Hin Heq. unfold currentAlignType.
  rewrite (find_align_by_name cfg _ a Hin Heq).
  pose proof (ALIGN_TYPES_nonempty a (availableAlignTypes_built_in _ _ Hin)) as Hne.
  apply truthy_VStr in Hne. by rewrite Hne.
Qed.

(** C4, as stated, fails: under [{ levels: [2, 3], alignTypes: ['center'] }]
    a stored level 5 with stored alignment [left] resolves to level 1 and
    to [left], and neither is available. *)
Lemma current_outside_available :
  availableLevels cfg_h2_h3_center = [Level 2 "H2" h2Icon; Level 3 "H3" h3Icon] /\
  currentLevel cfg_h2_h3_center data_h5_left = Level 1 "H1" h1Icon /\
  ~ In (currentLevel cfg_h2_h3_center data_h5_left)
       (availableLevels cfg_h2_h3_center) /\
  availableAlignTypes cfg_h2_h3_center = ["center"] /\
  currentAlignType cfg_h2_h3_center data_h5_left = "left" /\
  ~ In (currentAlignType cfg_h2_h3_center data_h5_left)
       (availableAlignTypes cfg_h2_h3_center).
Proof.
  repeat split; try reflexivity.
  - vm_compute. intros [H|[H|[]]]; discriminate H.
  - vm_compute. intros [H|[]]; discriminate H.
Qed.

(** C4, amended: the current level is the available level whose id is the
    stored level when there is one, and the resolved default otherwise;
    the resolved default is an available level or the built-in level 1
    (H1).  Hence the current level is always an available level or the
    built-in level 1.  The same holds for the alignment with the built-in
    [left].  Resolution is total, and the [level] and [align] of every
    [save] output are the id and name so resolved. *)
Theorem current_available_or_built_in_default (cfg : config) (dat : data_t) :
  (In (currentLevel cfg dat) (availableLevels cfg) \/
   currentLevel cfg dat = Level 1 "H1" h1Icon) /\
  (In (currentAlignType cfg dat) (availableAlignTypes cfg) \/
   currentAlignType cfg dat = "left") /\
  (forall l, In l (availableLevels cfg) -> id l = level dat ->
             currentLevel cfg dat = l) /\
  ((forall l, In l (availableLevels cfg) -> id l <> level dat) ->
   currentLevel cfg dat = userDefaultLevel cfg) /\
  (forall a, In a (availableAlignTypes cfg) -> align dat = VStr a ->
             currentAlignType cfg dat = a) /\
  ((forall a, In a (availableAlignTypes cfg) -> align dat <> VStr a) ->
   currentAlignType cfg dat = userDefaultAlignType cfg) /\
  (forall i18n_t readOnly el blockContent,
     let out := save (Instance i18n_t readOnly cfg dat el) blockContent in
     ((exists l, In l (availableLevels cfg) /\ saved_level out = id l) \/
      saved_level out = 1) /\
     (In (saved_align out) (availableAlignTypes cfg) \/
      saved_align out = "left")).
Proof.
  assert (In (currentLevel cfg dat) (availableLevels cfg) \/
          currentLevel cfg dat = Level 1 "H1" h1Icon) as HL.
  { destruct (currentLevel_cases cfg dat) as [[H _]|[_ ->]]; [by left|].
    apply userDefaultLevel_cases. }
  assert (In (currentAlignType cfg dat) (availableAlignTypes cfg) \/
          currentAlignType cfg dat = "left") as HA.
  { destruct (currentAlignType_cases cfg dat) as [[H _]|[_ ->]]; [by left|].
    apply userDefaultAlignType_cases. }
  split; [exact HL|]. split; [exact HA|].
  split; [apply currentLevel_available|].
  split.
  { intros Hnone. destruct (currentLevel_cases cfg dat) as [[H Hid]|[_ ->]];
      [|done]. by apply Hnone in H. }
  split; [apply currentAlignType_available|].
  split.
  { intros Hnone. destruct (currentAlignType_cases cfg dat) as [[H Heq]|[_ ->]];
      [|done]. by apply Hnone in H. }
  intros i18n_t readOnly el blockContent. simpl. split.
  - destruct HL as [H| ->]; [left; eauto | by right].
  - exact HA.
Qed.

End Current.

(* ===================================================================== *)
(** ** Normalisation                                                       *)
(* ===================================================================== *)

Section Normalisation.

Lemma parseInt_or_spec (v : value) (d : Z) :
  parseInt_or v d =
  match parseInt v with
  | Int z => if Z.eqb z 0 then d else z
  | NaN => d
  end.
Proof.
  unfold parseInt_or. destruct (parseInt v) as [|z]; [done|].
  simpl. by destruct (Z.eqb z 0).
Qed.

(** On every input but [null], [_normalizeData] returns a record with
    its three fields filled in as the source spells them. *)
Lemma normalizeData_defined (cfg : config) (data : value) :
  data <> VNull ->
  _normalizeData cfg data =
  Ok (Data (or (field data "text") (VStr ""))
           (parseInt_or (field data "level") (id (userDefaultLevel cfg)))
           (or (field data "align") (VStr (userDefaultAlignType cfg)))).
Proof.
  intros Hnull. unfold _normalizeData.
  destruct data as [| |b|n|s|props]; try done.
Qed.

Lemma parseInt_or_nonzero (v : value) (d : Z) : d <> 0 -> parseInt_or v d <> 0.
Proof.
  intros Hd. rewrite parseInt_or_spec.
  destruct (parseInt v) as [|z]; [done|].
  by destruct (Z.eqb_spec z 0).
Qed.

Lemma normalizeData_level_nonzero (cfg : config) (data : value) (dat : data_t) :
  _normalizeData cfg data = Ok dat -> level dat <> 0.
Proof.
  pose proof (userDefaultLevel_id_range cfg) as Hrange.
  destruct data as [| |b|n|s|props]; try done;
    (rewrite normalizeData_defined by done); intros [= <-]; simpl;
    apply parseInt_or_nonzero; lia.
Qed.

(** C2 (what the code does on [null]): [typeof null] is ["object"], so
    the guard of [_normalizeData] lets [null] through and reading
    [data.text] raises a [TypeError]; the constructor, which normalises
    its [data], raises it too. *)
Theorem normalizeData_null_throws (cfg : config) :
  _normalizeData cfg VNull = Throw TypeError /\
  forall i18n_t readOnly d,
    constructor i18n_t readOnly (Some cfg) VNull d = Throw TypeError.
Proof. split; reflexivity. Qed.

End Normalisation.

(* ===================================================================== *)
(** ** Building the element; the round trip through [save]                 *)
(* ===================================================================== *)

Section Rendering.

Context (i18n_t : string -> string) (readOnly : value).

Lemma fresh_not_in_store (d : Dom.store) : d !! fresh (dom d) = None.
Proof. apply not_elem_of_dom, is_fresh. Qed.

Lemma fresh_ne (d : Dom.store) (r : Dom.ref) (n : Dom.node) :
  d !! r = Some n -> fresh (dom d) <> r.
Proof. intros Hr Heq. subst r. by rewrite fresh_not_in_store in Hr. Qed.

(** [_getElement()] allocates one new node and leaves the rest of the
    document as it was. *)
Lemma getElement_built (cfg : config) (dat : data_t) (d : Dom.store) :
  _getElement i18n_t readOnly cfg dat d =
  (fresh (dom d), <[fresh (dom d) := built i18n_t readOnly cfg dat]> d).
Proof.
  unfold _getElement, Dom.createElement.
  rewrite !alter_insert_eq. f_equal.
Qed.

(** On every [data] but [null] the constructor succeeds, with the
    normalised data and the freshly built element. *)
Lemma constructor_defined (cfg : option config) (data : value) (d : Dom.store) :
  data <> VNull ->
  exists dat,
    _normalizeData (default empty_config cfg) data = Ok dat /\
    constructor i18n_t readOnly cfg data d =
    Ok (Instance i18n_t readOnly (default empty_config cfg) dat (fresh (dom d)),
        <[fresh (dom d) :=
            built i18n_t readOnly (default empty_config cfg) dat]> d).
Proof.
  intros Hnull. eexists. split; [by apply normalizeData_defined|].
  unfold constructor.
  rewrite normalizeData_defined by done.
  unfold mbind, result_bind, bind.
  by rewrite getElement_built.
Qed.

Lemma parseInt_or_level (z d : Z) :
  1 <= z <= 6 -> parseInt_or (VNum (Int z)) d = z.
Proof.
  intros Hz. rewrite parseInt_or_spec, parseInt_number.
  - destruct (Z.eqb_spec z 0); [lia|done].
  - change (2 ^ 53) with 9007199254740992. lia.
Qed.



End Rendering.



(* ===================================================================== *)
(** ** Changing the alignment                                              *)
(* ===================================================================== *)

Section Alignment.

Lemma In_token_add (x c : string) (cs : list string) :
  In x (Dom.token_add c cs) <-> x = c \/ In x cs.
Proof.
  unfold Dom.token_add.
  destruct (existsb (String.eqb c) cs) eqn:Hex.
  - split; [by right|]. intros [->|H]; [|done].
    apply existsb_exists in Hex as (y & Hy & Heq).
    apply String.eqb_eq in Heq. by subst.
  - rewrite in_app_iff. simpl. split.
    + intros [H|[H|[]]]; [by right | by left].
    + intros [H|H]; [right; by left | by left].
Qed.

Lemma In_token_remove (x c : string) (cs : list string) :
  In x (Dom.token_remove c cs) <-> In x cs /\ x <> c.
Proof.
  unfold Dom.token_remove. rewrite filter_In, negb_true_iff.
  split; intros [H1 H2]; (split; [done|]).
  - intros ->. by rewrite String.eqb_refl in H2.
  - apply String.eqb_neq. congruence.
Qed.

(** The [forEach] of [_setAlignType] only touches the tracked element,
    and does to it what [align_step] does turn by turn. *)
Lemma setAlignType_fold (newAlign : value) (el : Dom.ref) (names : list string)
    (d : Dom.store) (r : Dom.ref) :
  fold_left
    (fun d a =>
       let alignClass := CSS_wrapperForAlignment (VStr a) in
       let d := alter (Dom.classList_remove alignClass) el d in
       if strict_eq newAlign (VStr a)
       then alter (Dom.classList_add alignClass) el d
       else d)
    names d !! r =
  if decide (r = el)
  then (fun n => fold_left (align_step newAlign) names n) <$> d !! el
  else d !! r.
Proof.
  revert d. induction names as [|a names IH]; intros d; simpl.
  - case_decide; [subst|done]. by destruct (d !! el).
  - rewrite IH. case_decide as Hr.
    + destruct (strict_eq newAlign (VStr a)) eqn:Heq;
        rewrite ?lookup_alter_eq; destruct (d !! el) as [n|]; simpl; try done;
        unfold align_step at 3; by rewrite Heq.
    + destruct (strict_eq newAlign (VStr a));
        by rewrite ?lookup_alter_ne.
Qed.

Lemma setAlignType_lookup (newAlign : value) (h : t) (d : Dom.store) :
  (_setAlignType newAlign h d).2 !! _element h =
  (fun n => fold_left (align_step newAlign) ALIGN_TYPES n) <$> d !! _element h.
Proof.
  unfold _setAlignType. cbv zeta. cbn [snd with_data _element].
  rewrite setAlignType_fold. by rewrite decide_True.
Qed.

Lemma wrapperForAlignment_inj (a b : string) :
  CSS_wrapperForAlignment (VStr a) = CSS_wrapperForAlignment (VStr b) -> a = b.
Proof.
  unfold CSS_wrapperForAlignment. simpl. intros H. by injection H.
Qed.

Lemma align_step_classes (newAlign : string) (n : Dom.node) (a c : string) :
  In c (Dom.classList (align_step (VStr newAlign) n a)) <->
  (In c (Dom.classList n) /\ c <> CSS_wrapperForAlignment (VStr a)) \/
  (c = CSS_wrapperForAlignment (VStr a) /\ newAlign = a).
Proof.
  unfold align_step. cbn [strict_eq].
  destruct (String.eqb_spec newAlign a) as [->|Hne];
    cbn [Dom.classList_add Dom.classList_remove Dom.set_classList Dom.classList];
    rewrite ?In_token_add, In_token_remove; tauto.
Qed.

(** The classes of the element after the whole [forEach]: the old ones
    that are no alignment class, and the class of the new name. *)
Lemma align_fold_classes (newAlign : string) (names : list string)
    (n : Dom.node) (c : string) :
  In c (Dom.classList (fold_left (align_step (VStr newAlign)) names n)) <->
  (In c (Dom.classList n) /\
   forall a, In a names -> c <> CSS_wrapperForAlignment (VStr a)) \/
  (c = CSS_wrapperForAlignment (VStr newAlign) /\ In newAlign names).
Proof.
  revert n. induction names as [|a names IH]; intros n; simpl.
  - tauto.
  - rewrite IH, align_step_classes. split.
    + intros [[[[Hc Hne]|[-> ->]] Hrest]|[-> Hin]].
      * left. split; [done|]. intros b [<-|Hb]; auto.
      * right. split; [done|by left].
      * right. split; [done|by right].
    + intros [[Hc Hall]|[-> [->|Hin]]].
      * left. split; [left; split; [done|apply Hall; by left]|].
        intros b Hb. apply Hall. by right.
      * destruct (in_dec string_dec newAlign names) as [Hin|Hnin].
        -- right. by split.
        -- left. split; [by right|].
           intros b Hb Heq. apply wrapperForAlignment_inj in Heq. by subst.
      * right. by split.
Qed.

(** C8: after the alignment-change callback is called with one of the
    four known names, the tracked element (still the same node) has the
    class of that name and the class of no other known name, whatever its
    class list was before; the other classes are as they were; and the
    stored [align] is the new name. *)
Theorem setAlignType_one_alignment_class
    (newAlign : string) (h : t) (d : Dom.store) (el : Dom.node) :
  In newAlign ALIGN_TYPES ->
  d !! _element h = Some el ->
  exists el',
    _element (_setAlignType (VStr newAlign) h d).1 = _element h /\
    (_setAlignType (VStr newAlign) h d).2 !! _element h = Some el' /\
    In (CSS_wrapperForAlignment (VStr newAlign)) (Dom.classList el') /\
    (forall a, In a ALIGN_TYPES -> a <> newAlign ->
               ~ In (CSS_wrapperForAlignment (VStr a)) (Dom.classList el')) /\
    (forall c, (forall a, In a ALIGN_TYPES ->
                          c <> CSS_wrapperForAlignment (VStr a)) ->
               In c (Dom.classList el') <-> In c (Dom.classList el)) /\
    align (_data (_setAlignType (VStr newAlign) h d).1) = VStr newAlign.
Proof.
  intros Hnew Hel.
  eexists. split; [reflexivity|].
  split; [by rewrite setAlignType_lookup, Hel|].
  split; [|split; [|split; [|reflexivity]]].
  - apply align_fold_classes. by right.
  - intros a Ha Hne Hin. apply align_fold_classes in Hin as [[_ Hall]|[Heq _]].
    + by apply (Hall a Ha).
    + by apply wrapperForAlignment_inj in Heq.
  - intros c Hc. rewrite align_fold_classes. split.
    + intros [[Hin _]|[-> _]]; [done|]. by apply Hc in Hnew.
    + intros Hin. by left.
Qed.

End Alignment.

(** C8 at a class list that holds the classes of [justify] and [left]:
    after [_setAlignType("center")] only the class of [center] is left. *)
Lemma setAlignType_one_alignment_class_witness :
  exists el',
    (_setAlignType (VStr "center") (header_foo empty_config)
                   doc_two_alignments).2 !! 1%nat = Some el' /\
    In "ce-header-align-center" (Dom.classList el') /\
    ~ In "ce-header-align-left" (Dom.classList el') /\
    ~ In "ce-header-align-justify" (Dom.classList el').
Proof.
  destruct (setAlignType_one_alignment_class "center"
              (header_foo empty_config) doc_two_alignments
              (Dom.Node "H1" "Foo"
                 ["ce-header-align-justify"; "ce-header";
                  "ce-header-align-left"] true "" None []))
    as (el' & _ & Hlookup & Hin & Hout & _).
  - simpl. right. left. reflexivity.
  - reflexivity.
  - exists el'. split; [exact Hlookup|]. split; [exact Hin|]. split.
    + apply (Hout "left"); [simpl; left; reflexivity | discriminate].
    + apply (Hout "justify");
        [simpl; right; right; right; left; reflexivity | discriminate].
Defined.

(* ===================================================================== *)
(** ** Changing the level                                                  *)
(* ===================================================================== *)

Section LevelChange.

Lemma existsb_eqb_In (x : nat) (l : list nat) :
  In x l -> existsb (Nat.eqb x) l = true.
Proof.
  intros H. apply existsb_exists. exists x. split; [done|apply Nat.eqb_refl].
Qed.

(** What [_setHeaderLevel] does when the tracked element has a parent
    that lists it as a child and the argument is not [undefined]. *)
Lemma setHeaderLevel_attached (newLevel : value) (h : t) (d : Dom.store)
    (el p : Dom.node) (parent : Dom.ref) :
  strict_eq newLevel VUndefined = false ->
  d !! _element h = Some el ->
  Dom.parentNode el = Some parent ->
  d !! parent = Some p ->
  In (_element h) (Dom.childNodes p) ->
  let dat := data_with_level newLevel h in
  let new := fresh (dom d) in
  _setHeaderLevel newLevel h d =
  Ok (Instance (_api h) (_readOnly h) (_config h) dat new,
      alter (Dom.set_parentNode None) (_element h)
        (alter (Dom.set_parentNode (Some parent)) new
           (alter (Dom.set_childNodes
                     (Dom.replace_ref (_element h) new (Dom.childNodes p)))
                  parent
                  (<[new := Dom.set_innerHTML (Dom.innerHTML el)
                              (built (_api h) (_readOnly h) (_config h) dat)]>
                     d)))).
Proof.
  intros Hundef Hel Hparent Hp Hchild dat new.
  pose proof (fresh_ne d _ _ Hel) as Hne1.
  pose proof (fresh_ne d _ _ Hp) as Hne2.
  unfold _setHeaderLevel. rewrite Hundef.
  cbn [negb with_data _element _api _readOnly _config _data].
  unfold parentNode_of. rewrite Hel. cbn [mbind option_bind].
  rewrite Hparent, getElement_built.
  unfold innerHTML_of. rewrite lookup_insert_ne, Hel by done.
  cbn [fmap option_fmap option_map default].
  rewrite alter_insert_eq.
  unfold Dom.replaceChild. rewrite lookup_insert_ne, Hp by done.
  rewrite existsb_eqb_In by done.
  reflexivity.
Qed.

(** What it does when the tracked element has no parent: only the
    stored level changes. *)
Lemma setHeaderLevel_detached (newLevel : value) (h : t) (d : Dom.store)
    (el : Dom.node) :
  d !! _element h = Some el ->
  Dom.parentNode el = None ->
  _setHeaderLevel newLevel h d =
  Ok (with_data (data_with_level newLevel h) h, d).
Proof.
  intros Hel Hparent. unfold _setHeaderLevel.
  cbn [with_data _element]. unfold parentNode_of.
  rewrite Hel. cbn [mbind option_bind]. rewrite Hparent.
  by destruct (negb _).
Qed.

(** C9: from a state at level 1 whose element is attached to a parent,
    with level 3 available, [_setHeaderLevel(3)] succeeds; the tracked
    element is then a new node with tag H3 and the markup the old one
    had, standing in the parent where the old one stood, and [save]
    returns level 3.  When the tracked element has no parent, whatever
    the argument, only the stored level changes: the document and the
    tracked element are as before. *)
Theorem setHeaderLevel_then_save (h : t) (d : Dom.store) (el : Dom.node) :
  d !! _element h = Some el ->
  (forall parent p,
     level (_data h) = 1 ->
     Dom.parentNode el = Some parent ->
     d !! parent = Some p ->
     In (_element h) (Dom.childNodes p) ->
     In (Level 3 "H3" h3Icon) (availableLevels (_config h)) ->
     exists h' d' el',
       _setHeaderLevel (VNum (Int 3)) h d = Ok (h', d') /\
       d' !! _element h' = Some el' /\
       saved_level (save h' el') = 3 /\
       Dom.tagName el' = "H3" /\
       Dom.innerHTML el' = Dom.innerHTML el /\
       d !! _element h' = None /\
       Dom.childNodes <$> d' !! parent =
         Some (Dom.replace_ref (_element h) (_element h') (Dom.childNodes p))) /\
  (Dom.parentNode el = None ->
   forall newLevel,
     _setHeaderLevel newLevel h d =
     Ok (Instance (_api h) (_readOnly h) (_config h)
                  (Data (text (_data h))
                        (parseInt_or newLevel (id (userDefaultLevel (_config h))))
                        (align (_data h)))
                  (_element h),
         d)).
Proof.
  intros Hel. split.
  - intros parent p _ Hparent Hp Hchild Havail.
    pose proof (fresh_ne d _ _ Hel) as Hne1.
    pose proof (fresh_ne d _ _ Hp) as Hne2.
    rewrite (setHeaderLevel_attached _ h d el p parent) by done.
    assert (currentLevel (_config h) (data_with_level (VNum (Int 3)) h)
            = Level 3 "H3" h3Icon) as Hcur.
    { apply currentLevel_available; [done|].
      unfold data_with_level. cbn [level id].
      by rewrite parseInt_or_level by lia. }
    eexists _, _, _. split; [reflexivity|].
    cbn [_element].
    split.
    { rewrite lookup_alter_ne by done.
      rewrite lookup_alter_eq, lookup_alter_ne by done.
      by rewrite lookup_insert_eq. }
    unfold save. cbn [_config _data saved_level].
    cbn -[currentLevel currentAlignType]. rewrite Hcur.
    repeat split; try done.
    + exact (innerHTML_reads_as_itself el).
    + apply fresh_not_in_store.
    + rewrite !lookup_alter. rewrite lookup_insert_ne, Hp by done.
      repeat case_decide; try done.
  - intros Hparent newLevel.
    by rewrite (setHeaderLevel_detached newLevel h d el).
Qed.

End LevelChange.

(** C9 at the heading "Foo" of level 1: attached to a container, and
    detached. *)
Lemma setHeaderLevel_then_save_witness :
  (exists h' d' el',
     _setHeaderLevel (VNum (Int 3)) (header_foo empty_config) doc_attached
       = Ok (h', d') /\
     d' !! _element h' = Some el' /\
     saved_level (save h' el') = 3 /\
     Dom.tagName el' = "H3" /\
     Dom.innerHTML el' = "Foo") /\
  _setHeaderLevel (VNum (Int 3)) (header_foo empty_config) doc_detached
    = Ok (Instance i18n_id (VBool false) empty_config
                   (Data (VStr "Foo") 3 (VStr "left")) 1%nat,
          doc_detached).
Proof.
  split.
  - destruct (proj1 (setHeaderLevel_then_save (header_foo empty_config)
                       doc_attached (heading_foo (Some 0%nat)) eq_refl)
                    0%nat (Dom.Node "DIV" "" [] false "" None [1%nat]))
      as (h' & d' & el' & Hrun & Hlookup & Hsave & Htag & Hmarkup & _).
    + reflexivity.
    + reflexivity.
    + reflexivity.
    + simpl. left. reflexivity.
    + vm_compute. right. right. left. reflexivity.
    + exists h', d', el'. repeat split; assumption.
  - apply (proj2 (setHeaderLevel_then_save (header_foo empty_config)
                    doc_detached (heading_foo None) eq_refl)).
    reflexivity.
Defined.

(* ===================================================================== *)
(** ** Pasting                                                             *)
(* ===================================================================== *)

Section Paste.

Lemma currentAlignType_nonempty (cfg : config) (dat : data_t) :
  currentAlignType cfg dat <> "".
Proof.
  destruct (currentAlignType_cases cfg dat) as [[H _]|[_ ->]].
  - eauto using ALIGN_TYPES_nonempty, availableAlignTypes_built_in.
  - apply userDefaultAlignType_nonempty.
Qed.

Lemma or_VStr_empty (s : string) : or (VStr s) (VStr "") = VStr s.
Proof.
  unfold or. simpl. destruct (String.eqb_spec s ""); by subst.
Qed.

(** C10: [onPaste] always succeeds; it stores the pasted markup as
    [text], the level the tag maps to, and the alignment that was current
    before, and it tracks a newly built element that was not in the
    document before and has no parent, the rest of the document being
    untouched.  For a pasted H2 holding "Hello" while the current
    alignment is [right] the stored state is
    [{text: "Hello", level: 2, align: "right"}]; a tag outside H1..H6
    gives the id of the resolved default level. *)
Theorem onPaste_rebuilds (headerTag : Dom.node) (h : t) (d : Dom.store) :
  exists h' d' el',
    onPaste headerTag h d = Ok (h', d') /\
    d !! _element h' = None /\
    d' !! _element h' = Some el' /\
    el' = built (_api h) (_readOnly h) (_config h) (_data h') /\
    Dom.parentNode el' = None /\
    (forall r, r <> _element h' -> d' !! r = d !! r) /\
    text (_data h') = VStr (Dom.innerHTML headerTag) /\
    align (_data h') = VStr (currentAlignType (_config h) (_data h)) /\
    (Dom.tagName headerTag = "H2" ->
     Dom.innerHTML headerTag = "Hello" ->
     currentAlignType (_config h) (_data h) = "right" ->
     _data h' = Data (VStr "Hello") 2 (VStr "right")) /\
    (~ In (Dom.tagName headerTag) ["H1"; "H2"; "H3"; "H4"; "H5"; "H6"] ->
     level (_data h') = id (userDefaultLevel (_config h))).
Proof.
  unfold onPaste.
  rewrite normalizeData_defined by done.
  unfold mbind, result_bind, bind.
  cbn [with_data _api _readOnly _config _data].
  rewrite getElement_built.
  cbn [field assoc String.eqb Ascii.eqb Bool.eqb default].
  eexists _, _, _. split; [reflexivity|].
  cbn [with_element _element _data].
  split; [apply fresh_not_in_store|].
  split; [apply lookup_insert_eq|].
  split; [reflexivity|].
  split; [reflexivity|].
  split; [intros r Hr; by rewrite lookup_insert_ne|].
  cbn [text align level].
  split; [apply or_VStr_empty|].
  split.
  { apply or_truthy, truthy_VStr, currentAlignType_nonempty. }
  split.
  - intros -> -> ->. reflexivity.
  - intros Hother. simpl in Hother.
    pose proof (userDefaultLevel_id_range (_config h)) as Hrange.
    destruct (String.eqb_spec (Dom.tagName headerTag) "H1") as [Heq|_];
      [exfalso; apply Hother; rewrite Heq; tauto|].
    destruct (String.eqb_spec (Dom.tagName headerTag) "H2") as [Heq|_];
      [exfalso; apply Hother; rewrite Heq; tauto|].
    destruct (String.eqb_spec (Dom.tagName headerTag) "H3") as [Heq|_];
      [exfalso; apply Hother; rewrite Heq; tauto|].
    destruct (String.eqb_spec (Dom.tagName headerTag) "H4") as [Heq|_];
      [exfalso; apply Hother; rewrite Heq; tauto|].
    destruct (String.eqb_spec (Dom.tagName headerTag) "H5") as [Heq|_];
      [exfalso; apply Hother; rewrite Heq; tauto|].
    destruct (String.eqb_spec (Dom.tagName headerTag) "H6") as [Heq|_];
      [exfalso; apply Hother; rewrite Heq; tauto|].
    by apply parseInt_or_level.
Qed.

End Paste.

(** C10 at a pasted [<h2>Hello</h2>] while the stored alignment is
    [right]. *)
Lemma onPaste_rebuilds_witness :
  exists h' d',
    onPaste pasted_h2 header_right doc_detached = Ok (h', d') /\
    _data h' = Data (VStr "Hello") 2 (VStr "right") /\
    doc_detached !! _element h' = None.
Proof.
  destruct (onPaste_rebuilds pasted_h2 header_right doc_detached)
    as (h' & d' & el' & Hrun & Hfresh & _ & _ & _ & _ & _ & _ & Hh2 & _).
  exists h', d'. split; [exact Hrun|]. split; [|exact Hfresh].
  apply Hh2; reflexivity.
Defined.

(* ===================================================================== *)
(** ** Merging                                                             *)
(* ===================================================================== *)

Section Merge.

(** Whenever reading [data.text] succeeds, [merge] appends the string
    form of what was read: the [|| ''] applies to the concatenation, not
    to [data.text].  When that string form is character data that needs
    no escaping, as "undefined" and "null" are, the markup then reads as
    the old markup followed by it. *)
Lemma merge_appends_to_string (data v : value) (h : t) (d : Dom.store)
    (el : Dom.node) :
  get data "text" = Ok v ->
  d !! _element h = Some el ->
  merge data h d =
  Ok (alter (Dom.set_innerHTML (Dom.innerHTML el +:+ to_string v))
            (_element h) d) /\
  (Dom.inert (to_string v) = true ->
   markup_after_merge data h d = Ok (Dom.innerHTML el +:+ to_string v)).
Proof.
  intros Hget Hel. unfold markup_after_merge, merge.
  rewrite Hget. unfold mbind, result_bind, bind, mret, result_ret.
  unfold concat, innerHTML_of.
  rewrite lookup_alter_eq, Hel. simpl.
  rewrite or_VStr_empty. split; [done|]. intros Hv. f_equal.
  apply reads_as_app_inert; [apply innerHTML_reads_as_itself | done].
Qed.

(** [merge] raises a [TypeError] when handed [undefined] or [null]. *)
Lemma merge_throws_without_fragment (h : t) (d : Dom.store) :
  merge VUndefined h d = Throw TypeError /\ merge VNull h d = Throw TypeError.
Proof. split; reflexivity. Qed.

(** C1 (what the code does when the fragment has no [text]): with markup
    "Foo", [merge({text: "Bar"})] gives "FooBar", but [merge({})] gives
    "Fooundefined" and [merge({text: null})] gives "Foonull"; only the
    empty string, among the falsy texts, leaves the markup unchanged. *)
Theorem merge_without_text_appends_undefined :
  markup_after_merge (VObj [("text", VStr "Bar")])
                     (header_foo empty_config) doc_detached = Ok "FooBar" /\
  markup_after_merge (VObj []) (header_foo empty_config) doc_detached
    = Ok "Fooundefined" /\
  markup_after_merge (VObj [("text", VNull)])
                     (header_foo empty_config) doc_detached = Ok "Foonull" /\
  markup_after_merge (VObj [("text", VStr "")])
                     (header_foo empty_config) doc_detached = Ok "Foo".
Proof. repeat split; reflexivity. Qed.

End Merge.

(* ===================================================================== *)
(** ** The settings menu                                                   *)
(* ===================================================================== *)

Section Settings.

(** The menu always has the six built-in levels followed by the four
    built-in alignment names, whatever the configuration. *)
Lemma renderSettings_callbacks (h : t) :
  map onActivate (renderSettings h) =
  (map call_setHeaderLevel [1; 2; 3; 4; 5; 6] ++
   map call_setAlignType ["left"; "center"; "right"; "justify"])%list.
Proof. reflexivity. Qed.

(** Each entry carries its group, and is active exactly when it is the
    current level, respectively the current alignment. *)
Lemma renderSettings_flags (h : t) (s : setting) :
  In s (renderSettings h) ->
  closeOnActivate s = true /\
  match onActivate s with
  | call_setHeaderLevel i =>
      toggle s = "heading" /\
      (isActive s = true <-> i = id (currentLevel (_config h) (_data h)))
  | call_setAlignType a =>
      toggle s = "align" /\
      (isActive s = true <-> a = currentAlignType (_config h) (_data h))
  end.
Proof.
  unfold renderSettings. rewrite in_app_iff, !in_map_iff.
  intros [(l & <- & _)|(a & <- & _)]; simpl; (split; [done|split; [done|]]).
  - apply Z.eqb_eq.
  - apply String.eqb_eq.
Qed.

(** C3 (what the code does under allow-lists): with
    [{ levels: [2, 3], alignTypes: ['center'] }] two levels and one
    alignment are available, yet [renderSettings] returns ten entries:
    one for each of the six built-in levels and one for each of the four
    built-in alignment names. *)
Theorem renderSettings_ignores_allow_lists :
  availableLevels cfg_h2_h3_center
    = [Level 2 "H2" h2Icon; Level 3 "H3" h3Icon] /\
  availableAlignTypes cfg_h2_h3_center = ["center"] /\
  map onActivate (renderSettings (header_foo cfg_h2_h3_center)) =
    [ call_setHeaderLevel 1; call_setHeaderLevel 2; call_setHeaderLevel 3;
      call_setHeaderLevel 4; call_setHeaderLevel 5; call_setHeaderLevel 6;
      call_setAlignType "left"; call_setAlignType "center";
      call_setAlignType "right"; call_setAlignType "justify" ] /\
  map toggle (renderSettings (header_foo cfg_h2_h3_center)) =
    [ "heading"; "heading"; "heading"; "heading"; "heading"; "heading";
      "align"; "align"; "align"; "align" ].
Proof. repeat split; reflexivity. Qed.

End Settings.

(* ===================================================================== *)
(** ** The tracked element is always a node of the document                *)
(* ===================================================================== *)

Section Tracked.

Lemma constructor_tracked (i18n_t : string -> string) (readOnly : value)
    (cfg : option config) (data : value) (d d' : Dom.store) (h : t) :
  constructor i18n_t readOnly cfg data d = Ok (h, d') -> tracked h d'.
Proof.
  intros Hrun.
  assert (data <> VNull) as Hnull by (by intros ->).
  destruct (constructor_defined i18n_t readOnly cfg data d Hnull)
    as (dat & _ & Heq).
  rewrite Heq in Hrun. injection Hrun as <- <-.
  unfold tracked. cbn [_element]. rewrite lookup_insert_eq. by eexists.
Qed.

Lemma setAlignType_tracked (newAlign : value) (h : t) (d : Dom.store) :
  tracked h d ->
  tracked (_setAlignType newAlign h d).1 (_setAlignType newAlign h d).2.
Proof.
  intros [el Hel]. unfold tracked.
  change (_element (_setAlignType newAlign h d).1) with (_element h).
  rewrite setAlignType_lookup, Hel. by eexists.
Qed.

Lemma merge_tracked (data : value) (h : t) (d d' : Dom.store) :
  merge data h d = Ok d' -> tracked h d -> tracked h d'.
Proof.
  unfold merge. destruct (get data "text") as [v|e]; [|done].
  intros [= <-] [el Hel]. unfold tracked.
  rewrite lookup_alter_eq, Hel. by eexists.
Qed.

Lemma onPaste_tracked (headerTag : Dom.node) (h h' : t) (d d' : Dom.store) :
  onPaste headerTag h d = Ok (h', d') -> tracked h' d'.
Proof.
  unfold onPaste. rewrite normalizeData_defined by done.
  unfold mbind, result_bind, bind.
  cbn [with_data _api _readOnly _config _data].
  rewrite getElement_built. intros [= <- <-].
  unfold tracked. cbn [with_element _element].
  rewrite lookup_insert_eq. by eexists.
Qed.

Lemma setHeaderLevel_tracked (newLevel : value) (h h' : t) (d d' : Dom.store) :
  _setHeaderLevel newLevel h d = Ok (h', d') -> tracked h d -> tracked h' d'.
Proof.
  unfold _setHeaderLevel, tracked.
  cbn [with_data _api _readOnly _config _data _element].
  destruct (negb _); [|by intros [= <- <-]].
  destruct (parentNode_of _ d) as [parent|]; [|by intros [= <- <-]].
  rewrite getElement_built. unfold Dom.replaceChild.
  destruct (_ !! parent) as [p|]; [|done].
  destruct (existsb _ _); [|done].
  intros [= <- <-] [el Hel]. cbn [with_element _element].
  pose proof (fresh_ne d _ _ Hel) as Hne.
  rewrite lookup_alter_ne by done.
  rewrite lookup_alter_eq, lookup_alter. case_decide as Hparent.
  - subst parent. rewrite lookup_alter_eq, lookup_insert_eq. by eexists.
  - rewrite lookup_alter_eq, lookup_insert_eq. by eexists.
Qed.

End Tracked.

(* ===================================================================== *)
(** ** Validation                                                          *)
(* ===================================================================== *)

Section Validation.

Lemma strip_prefix_app (w r : string) : strip_prefix w (w +:+ r) = Some r.
Proof.
  induction w as [|a w IH]; simpl; [by destruct r|].
  by rewrite Ascii.eqb_refl.
Qed.

Lemma strip_prefix_Some (w s r : string) :
  strip_prefix w s = Some r -> s = w +:+ r.
Proof.
  revert s. induction w as [|a w IH]; intros s; simpl.
  - by intros [= ->].
  - destruct s as [|b s]; [done|].
    destruct (Ascii.eqb_spec a b) as [->|]; [|done].
    intros H. by rewrite (IH s H).
Qed.

Lemma strip_whitespace_Some (s r : string) :
  strip_whitespace s = Some r ->
  exists w, In w whitespace /\ s = w +:+ r.
Proof.
  unfold strip_whitespace.
  induction whitespace as [|w ws IH]; simpl; [done|].
  destruct (strip_prefix w s) as [r'|] eqn:Hw.
  - intros [= ->]. exists w. split; [by left|]. by apply strip_prefix_Some.
  - intros H. destruct (IH H) as (w' & Hin & ->). exists w'. split; [by right|done].
Qed.

(** No white space character is a prefix of another, so the character
    stripped is the one the string starts with. *)
Lemma strip_whitespace_app (w r : string) :
  In w whitespace -> strip_whitespace (w +:+ r) = Some r.
Proof.
  unfold whitespace. simpl.
  intros H.
  repeat (destruct H as [<-|H]; [reflexivity|]). done.
Qed.

Lemma whitespace_length (w : string) :
  In w whitespace -> (1 <= String.length w)%nat.
Proof.
  unfold whitespace. simpl.
  intros H. repeat (destruct H as [<-|H]; [simpl; lia|]). done.
Qed.

Lemma length_append (a b : string) :
  String.length (a +:+ b) = (String.length a + String.length b)%nat.
Proof. induction a as [|c a IH]; simpl; [done|]. by rewrite IH. Qed.

Lemma blank_strip (s r : string) :
  strip_whitespace s = Some r -> blank s -> blank r.
Proof.
  intros Hs Hb. destruct Hb as [|w s' Hw Hb]; [done|].
  rewrite strip_whitespace_app in Hs by done. by injection Hs as <-.
Qed.

Lemma trimStart_loop_blank (fuel : nat) (s : string) :
  blank (trimStart_loop fuel s) <-> blank s.
Proof.
  revert s. induction fuel as [|fuel IH]; intros s; simpl; [done|].
  destruct (strip_whitespace s) as [r|] eqn:Hs; [|done].
  rewrite IH. split.
  - intros Hr. apply strip_whitespace_Some in Hs as (w & Hw & ->).
    by constructor.
  - by apply blank_strip.
Qed.

Lemma trimStart_loop_empty (fuel : nat) (s : string) :
  (String.length s <= fuel)%nat ->
  trimStart_loop fuel s = "" <-> blank s.
Proof.
  revert s. induction fuel as [|fuel IH]; intros s Hlen; simpl.
  - destruct s; [|simpl in Hlen; lia]. split; [constructor|done].
  - destruct (strip_whitespace s) as [r|] eqn:Hs.
    + pose proof Hs as Hs'.
      apply strip_whitespace_Some in Hs' as (w & Hw & ->).
      pose proof (whitespace_length w Hw).
      rewrite length_append in Hlen.
      rewrite IH by lia. split; [by constructor|by apply blank_strip].
    + split; [intros ->; constructor|].
      intros Hb. destruct Hb as [|w s' Hw Hb]; [done|].
      by rewrite strip_whitespace_app in Hs.
Qed.

Lemma trimStart_empty (s : string) : trimStart s = "" <-> blank s.
Proof. by apply trimStart_loop_empty. Qed.

Lemma trimEnd_empty (s : string) : trimEnd s = "" <-> trimStart s = "".
Proof.
  destruct s as [|c s]; [done|]. cbn [trimEnd].
  destruct (String.eqb_spec (trimStart (String c s)) ""); split; done.
Qed.

(** [s.trim()] is empty exactly when [s] is white space only. *)
Lemma trim_empty (s : string) : trim s = "" <-> blank s.
Proof.
  unfold trim. rewrite trimEnd_empty, trimStart_empty.
  apply trimStart_loop_blank.
Qed.

(** X1: when [savedData.text] is a string, [validate] returns [false]
    if that string is white space only (the empty string included) and
    [true] otherwise. *)
Theorem validate_rejects_blank_text (savedData : value) (s : string) :
  get savedData "text" = Ok (VStr s) ->
  (blank s -> validate savedData = Ok false) /\
  (~ blank s -> validate savedData = Ok true).
Proof.
  intros Hget. unfold validate. rewrite Hget.
  unfold mbind, result_bind, bind, mret, result_ret.
  destruct (String.eqb_spec (trim s) "") as [Heq|Hne].
  - apply trim_empty in Heq. split; [done|]. by intros [].
  - split; [|done]. intros Hb. by apply trim_empty in Hb.
Qed.

(** X2: [validate] raises a [TypeError] exactly when [savedData.text]
    cannot be read or is not a string; otherwise it returns a boolean. *)
Theorem validate_throws_unless_string (savedData : value) :
  (validate savedData = Throw TypeError <->
   forall s, get savedData "text" <> Ok (VStr s)) /\
  (validate savedData = Throw TypeError \/
   exists b, validate savedData = Ok b).
Proof.
  unfold validate.
  destruct savedData as [| |b|n|s0|props]; simpl;
    try (split; [split; [by intros _ s|done] | by left]).
  destruct (default VUndefined (assoc "text" props)) as [| |b|n|s0|ps];
    try (split; [split; [by intros _ s|done] | by left]).
  split; [|right; by eexists].
  split; [done|]. intros H. by destruct (H s0).
Qed.

(** X3: [validate] applied to what [save] returns never throws; it is
    [false] when the markup of the saved element is white space only and
    [true] otherwise, whatever the level and the alignment. *)
Theorem validate_of_save (h : t) (blockContent : Dom.node) :
  (blank (Dom.innerHTML blockContent) ->
   validate_saved (save h blockContent) = Ok false) /\
  (~ blank (Dom.innerHTML blockContent) ->
   validate_saved (save h blockContent) = Ok true).
Proof.
  unfold validate_saved, validate. simpl.
  unfold mbind, result_bind, bind, mret, result_ret. simpl.
  destruct (String.eqb_spec (trim (Dom.innerHTML blockContent)) "") as [Heq|Hne].
  - apply trim_empty in Heq. split; [done|]. by intros [].
  - split; [|done]. intros Hb. by apply trim_empty in Hb.
Qed.

(** X4: a block constructed from data whose [text] is missing or falsy
    renders an element with empty markup, and what [save] returns for it
    is rejected by [validate]. *)
Theorem empty_block_is_rejected (i18n_t : string -> string) (readOnly : value)
    (cfg : option config) (data : value) (d : Dom.store) :
  data <> VNull ->
  truthy (field data "text") = false ->
  exists h d' r,
    constructor i18n_t readOnly cfg data d = Ok (h, d') /\
    save_tracked h d' = Some r /\
    saved_text r = "" /\
    validate_saved r = Ok false.
Proof.
  intros Hnull Htext.
  destruct (constructor_defined i18n_t readOnly cfg data d Hnull)
    as (dat & Hdat & ->).
  rewrite normalizeData_defined in Hdat by done. injection Hdat as <-.
  eexists _, _, _. split; [reflexivity|].
  unfold save_tracked. cbn [_element]. rewrite lookup_insert_eq.
  split; [reflexivity|].
  cbn [fmap option_fmap option_map save saved_text].
  unfold Dom.innerHTML. cbn [Dom.markup built text].
  rewrite (or_falsy (field data "text")), or_VStr_empty by done.
  split; reflexivity.
Qed.

End Validation.

(** X1 at [{text: "  "}] and [{text: "x"}]. *)
Lemma validate_rejects_blank_text_witness :
  validate (VObj [("text", VStr "  ")]) = Ok false /\
  validate (VObj [("text", VStr "x")]) = Ok true.
Proof.
  split.
  - apply (proj1 (validate_rejects_blank_text
                    (VObj [("text", VStr "  ")]) "  " eq_refl)).
    apply (blank_more " " " "); [vm_compute; tauto|].
    apply (blank_more " " ""); [vm_compute; tauto|]. constructor.
  - apply (proj2 (validate_rejects_blank_text
                    (VObj [("text", VStr "x")]) "x" eq_refl)).
    intros Hb. apply trim_empty in Hb. vm_compute in Hb. discriminate Hb.
Defined.

(** X4 at [data = {}] in an empty document. *)
Lemma empty_block_is_rejected_witness :
  exists h d' r,
    constructor i18n_id (VBool false) None (VObj []) ∅ = Ok (h, d') /\
    save_tracked h d' = Some r /\
    saved_text r = "" /\
    validate_saved r = Ok false.
Proof.
  apply (empty_block_is_rejected i18n_id (VBool false) None (VObj []) ∅).
  - discriminate.
  - reflexivity.
Defined.

(* ===================================================================== *)
(** ** What is stored and what it resolves to                              *)
(* ===================================================================== *)

Section Stored.

Lemma or_or (a b : value) : or (or a b) b = or a b.
Proof.
  unfold or. destruct (truthy a) eqn:Ha; [by rewrite Ha|].
  by destruct (truthy b).
Qed.

Lemma DEFAULT_HEADER_LEVEL_built_in : In DEFAULT_HEADER_LEVEL HEADER_LEVELS.
Proof. by left. Qed.

Lemma userDefaultLevel_built_in (cfg : config) :
  In (userDefaultLevel cfg) HEADER_LEVELS.
Proof.
  destruct (userDefaultLevel_cases cfg) as [H| ->].
  - by eapply availableLevels_built_in.
  - apply DEFAULT_HEADER_LEVEL_built_in.
Qed.

Lemma currentLevel_built_in (cfg : config) (dat : data_t) :
  In (currentLevel cfg dat) HEADER_LEVELS.
Proof.
  destruct (currentLevel_cases cfg dat) as [[H _]|[_ ->]].
  - by eapply availableLevels_built_in.
  - apply userDefaultLevel_built_in.
Qed.

Lemma currentAlignType_built_in (cfg : config) (dat : data_t) :
  In (currentAlignType cfg dat) ALIGN_TYPES.
Proof.
  destruct (currentAlignType_cases cfg dat) as [[H _]|[_ ->]].
  - by eapply availableAlignTypes_built_in.
  - destruct (userDefaultAlignType_cases cfg) as [H| ->].
    + by eapply availableAlignTypes_built_in.
    + by left.
Qed.

(** A stored level that is the id of a built-in level [c] resolves to
    [c] whenever [c] is what the fallback would give. *)
Lemma currentLevel_of_id (cfg : config) (dat : data_t) (c : level_t) :
  In c HEADER_LEVELS ->
  level dat = id c ->
  In c (availableLevels cfg) \/ c = userDefaultLevel cfg ->
  currentLevel cfg dat = c.
Proof.
  intros Hc Hid Hwhere.
  destruct (currentLevel_cases cfg dat) as [[Hin Hcur]|[Hnone Hcur]].
  - apply HEADER_LEVELS_id_inj; [by eapply availableLevels_built_in|done|].
    by rewrite Hcur.
  - rewrite Hcur. destruct Hwhere as [Hin| ->]; [|done].
    by destruct (Hnone c Hin).
Qed.

Lemma currentAlignType_of_name (cfg : config) (dat : data_t) (a : string) :
  align dat = VStr a ->
  In a (availableAlignTypes cfg) \/ a = userDefaultAlignType cfg ->
  currentAlignType cfg dat = a.
Proof.
  intros Ha Hwhere.
  destruct (currentAlignType_cases cfg dat) as [[Hin Hcur]|[Hnone Hcur]].
  - rewrite Ha in Hcur. by injection Hcur.
  - rewrite Hcur. destruct Hwhere as [Hin| ->]; [|done].
    by destruct (Hnone a Hin).
Qed.

Lemma currentLevel_where (cfg : config) (dat : data_t) :
  In (currentLevel cfg dat) (availableLevels cfg) \/
  currentLevel cfg dat = userDefaultLevel cfg.
Proof.
  destruct (currentLevel_cases cfg dat) as [[H _]|[_ H]]; [by left|by right].
Qed.

Lemma currentAlignType_where (cfg : config) (dat : data_t) :
  In (currentAlignType cfg dat) (availableAlignTypes cfg) \/
  currentAlignType cfg dat = userDefaultAlignType cfg.
Proof.
  destruct (currentAlignType_cases cfg dat) as [[H _]|[_ H]];
    [by left|by right].
Qed.

(** X5: normalising what [_normalizeData] returned gives it back
    unchanged when the level it stored is below 2^53 in absolute value,
    as every level id is: the data [onPaste] rebuilds and re-normalises
    is already in normal form. *)
Theorem normalizeData_idempotent (cfg : config) (data : value) (dat : data_t) :
  _normalizeData cfg data = Ok dat ->
  Z.abs (level dat) < 2 ^ 53 ->
  _normalizeData cfg (data_to_value dat) = Ok dat.
Proof.
  intros Hdat Hsmall.
  pose proof (normalizeData_level_nonzero cfg data dat Hdat) as Hlevel.
  assert (data <> VNull) as Hnull by (by intros ->).
  rewrite normalizeData_defined in Hdat by done. injection Hdat as <-.
  rewrite normalizeData_defined by done.
  cbn [data_to_value field assoc String.eqb Ascii.eqb Bool.eqb default
       from_option text level align] in *.
  unfold Datatypes.id. rewrite !or_or. do 2 f_equal.
  rewrite parseInt_or_spec, parseInt_number by done.
  by destruct (Z.eqb_spec (parseInt_or (field data "level")
                             (id (userDefaultLevel cfg))) 0).
Qed.

(** From 10^21 on a stored level does not survive: its string form is
    in exponent notation, of which [parseInt] reads the leading digit. *)
Lemma normalizeData_rereads_large_level :
  _normalizeData empty_config (VObj [("level", VStr "1000000000000000000000")])
  = Ok (Data (VStr "") (10 ^ 21) (VStr "left")) /\
  _normalizeData empty_config
    (data_to_value (Data (VStr "") (10 ^ 21) (VStr "left")))
  = Ok (Data (VStr "") 1 (VStr "left")).
Proof. by vm_compute. Qed.

(** X6: resolution is stable: a state that stores the id of the
    current level resolves to the same level, and a state that stores the
    name of the current alignment resolves to the same alignment, also
    when these are fallbacks outside the allow-lists. *)
Theorem current_resolution_stable (cfg : config) (dat dat' : data_t) :
  (level dat' = id (currentLevel cfg dat) ->
   currentLevel cfg dat' = currentLevel cfg dat) /\
  (align dat' = VStr (currentAlignType cfg dat) ->
   currentAlignType cfg dat' = currentAlignType cfg dat).
Proof.
  split; intros H.
  - apply currentLevel_of_id;
      [apply currentLevel_built_in | done | apply currentLevel_where].
  - apply currentAlignType_of_name; [done | apply currentAlignType_where].
Qed.

End Stored.

(** X5 at [{level: "3abc"}] under [{ levels: [1, 2, 3], defaultLevel: '2' }]. *)
Lemma normalizeData_idempotent_witness :
  _normalizeData cfg_default_2 (data_to_value (Data (VStr "") 3 (VStr "left")))
  = Ok (Data (VStr "") 3 (VStr "left")).
Proof.
  apply (normalizeData_idempotent cfg_default_2
           (VObj [("level", VStr "3abc")])).
  - reflexivity.
  - reflexivity.
Defined.

(* ===================================================================== *)
(** ** Constructing a block and reopening a saved one                      *)
(* ===================================================================== *)

Section Reopening.

Context (i18n_t : string -> string) (readOnly : value).

Lemma currentLevel_id_range (cfg : config) (dat : data_t) :
  1 <= id (currentLevel cfg dat) <= 6.
Proof. apply HEADER_LEVELS_id_range, currentLevel_built_in. Qed.

Lemma wrapper_not_alignment_class (a : string) :
  CSS_wrapper <> CSS_wrapperForAlignment (VStr a).
Proof. discriminate. Qed.

(** The element [_getElement()] builds shows the state it was built
    from. *)
Lemma built_alignment_classes (cfg : config) (dat : data_t) (a : string) :
  In (CSS_wrapperForAlignment (VStr a))
     (Dom.classList (built i18n_t readOnly cfg dat)) <->
  a = currentAlignType cfg dat.
Proof.
  cbn [built Dom.classList In]. split.
  - intros [H|[H|[]]].
    + by destruct (wrapper_not_alignment_class a).
    + symmetry. by apply wrapperForAlignment_inj.
  - intros ->. right. by left.
Qed.

(** X7: what [save] returns is a fixed point of reopening: constructing
    a block from it under the same configuration and saving the element
    it renders returns the same record, also when the level or the
    alignment is a fallback outside the allow-lists and when the text is
    empty. *)
Theorem save_is_fixed_point (h : t) (blockContent : Dom.node) (d : Dom.store) :
  exists h' d',
    constructor (_api h) (_readOnly h) (Some (_config h))
                (saved_to_value (save h blockContent)) d = Ok (h', d') /\
    save_tracked h' d' = Some (save h blockContent).
Proof.
  destruct (constructor_defined (_api h) (_readOnly h) (Some (_config h))
              (saved_to_value (save h blockContent)) d)
    as (dat & Hdat & ->); [done|].
  rewrite normalizeData_defined in Hdat by done. injection Hdat as <-.
  eexists _, _. split; [reflexivity|].
  unfold save_tracked. cbn [_element]. rewrite lookup_insert_eq.
  cbn [fmap option_fmap option_map]. f_equal.
  unfold save at 1. unfold Dom.innerHTML at 1.
  cbn [_config _data default from_option built Dom.markup text
       saved_to_value field assoc String.eqb Ascii.eqb Bool.eqb
       save saved_text saved_level saved_align].
  unfold Datatypes.id.
  pose proof (currentLevel_id_range (_config h) (_data h)) as Hrange.
  pose proof (currentAlignType_nonempty (_config h) (_data h)) as Hname.
  apply truthy_VStr in Hname.
  rewrite parseInt_or_level by done.
  rewrite (or_truthy (VStr (currentAlignType _ _))) by done.
  rewrite !or_VStr_empty. cbn [to_string].
  rewrite innerHTML_reads_as_itself.
  rewrite (currentLevel_of_id (_config h) _ (currentLevel (_config h) (_data h)));
    [|apply currentLevel_built_in | done | apply currentLevel_where].
  by rewrite (currentAlignType_of_name (_config h) _
                (currentAlignType (_config h) (_data h)));
    [|done | apply currentAlignType_where].
Qed.


(** X9: when the [level] of the data does not parse to a non-zero
    number and its [align] is missing or falsy (as for every non-object,
    for [{}] and for [{level: "abc"}]), the block is constructed with the
    resolved default level and alignment, and [save] reports them as the
    level and the alignment of the element. *)
Theorem construction_falls_back_to_defaults
    (cfg : config) (data : value) (d : Dom.store) :
  data <> VNull ->
  parseInt (field data "level") = NaN \/ parseInt (field data "level") = Int 0 ->
  truthy (field data "align") = false ->
  exists h d' r,
    constructor i18n_t readOnly (Some cfg) data d = Ok (h, d') /\
    level (_data h) = id (userDefaultLevel cfg) /\
    align (_data h) = VStr (userDefaultAlignType cfg) /\
    save_tracked h d' = Some r /\
    saved_level r = id (userDefaultLevel cfg) /\
    saved_align r = userDefaultAlignType cfg.
Proof.
  intros Hnull Hlevel Halign.
  destruct (constructor_defined i18n_t readOnly (Some cfg) data d Hnull)
    as (dat & Hdat & ->).
  rewrite normalizeData_defined in Hdat by done. injection Hdat as <-.
  cbn [default from_option]. unfold Datatypes.id.
  assert (parseInt_or (field data "level") (id (userDefaultLevel cfg))
          = id (userDefaultLevel cfg)) as Hl.
  { rewrite parseInt_or_spec. by destruct Hlevel as [-> | ->]. }
  rewrite Hl, (or_falsy (field data "align")) by done.
  eexists _, _, _. split; [reflexivity|].
  cbn [_data level align]. split; [done|]. split; [done|].
  unfold save_tracked. cbn [_element]. rewrite lookup_insert_eq.
  cbn [fmap option_fmap option_map]. split; [reflexivity|].
  unfold save. cbn [_config _data saved_level saved_align].
  rewrite (currentLevel_of_id cfg _ (userDefaultLevel cfg));
    [|apply userDefaultLevel_built_in|done|by right].
  by rewrite (currentAlignType_of_name cfg _ (userDefaultAlignType cfg));
    [|done|by right].
Qed.

(** X10: a stored level is not clamped: constructing from
    [{level: z}] with a non-zero integer [z] below 2^53 in absolute value
    that is the id of no available level keeps [z] in the state, while
    the element is rendered with, and [save] reports, the resolved
    default level. *)
Theorem unavailable_level_is_kept_but_resolves_to_default
    (cfg : config) (z : Z) (d : Dom.store) :
  z <> 0 ->
  Z.abs z < 2 ^ 53 ->
  (forall l, In l (availableLevels cfg) -> id l <> z) ->
  exists h d' el,
    constructor i18n_t readOnly (Some cfg)
                (VObj [("level", VNum (Int z))]) d = Ok (h, d') /\
    level (_data h) = z /\
    d' !! render h = Some el /\
    Dom.tagName el = tag (userDefaultLevel cfg) /\
    saved_level (save h el) = id (userDefaultLevel cfg).
Proof.
  intros Hz Hsmall Hnone.
  destruct (constructor_defined i18n_t readOnly (Some cfg)
              (VObj [("level", VNum (Int z))]) d) as (dat & Hdat & ->);
    [done|].
  rewrite normalizeData_defined in Hdat by done. injection Hdat as <-.
  cbn [default from_option field assoc String.eqb Ascii.eqb Bool.eqb].
  unfold Datatypes.id.
  assert (parseInt_or (VNum (Int z)) (id (userDefaultLevel cfg)) = z) as Hl.
  { rewrite parseInt_or_spec, parseInt_number by done.
    by destruct (Z.eqb_spec z 0). }
  rewrite Hl.
  eexists _, _, _. split; [reflexivity|].
  cbn [render _element _data _config level]. split; [done|].
  split; [apply lookup_insert_eq|].
  unfold save. cbn [built Dom.tagName saved_level _config _data].
  assert (currentLevel cfg
            (Data (or VUndefined (VStr "")) z
                  (or VUndefined (VStr (userDefaultAlignType cfg))))
          = userDefaultLevel cfg) as ->; [|done].
  destruct (currentLevel_cases cfg
              (Data (or VUndefined (VStr "")) z
                    (or VUndefined (VStr (userDefaultAlignType cfg)))))
    as [[Hin Hid]|[_ Hcur]]; [|done].
  by destruct (Hnone _ Hin).
Qed.

End Reopening.


(** X9 at [data = undefined] under [{ levels: [1, 2, 3], defaultLevel: '2' }]. *)
Lemma construction_falls_back_to_defaults_witness :
  exists h d' r,
    constructor i18n_id (VBool false) (Some cfg_default_2) VUndefined ∅
      = Ok (h, d') /\
    save_tracked h d' = Some r /\
    saved_level r = 2 /\
    saved_align r = "left".
Proof.
  destruct (construction_falls_back_to_defaults i18n_id (VBool false)
              cfg_default_2 VUndefined ∅)
    as (h & d' & r & Hrun & _ & _ & Hsave & Hlevel & Halign).
  - discriminate.
  - left. reflexivity.
  - reflexivity.
  - exists h, d', r. repeat split; assumption.
Defined.

(** X10 at [{level: 99}] under [{ levels: [2, 3], alignTypes: ['center'] }]. *)
Lemma unavailable_level_is_kept_but_resolves_to_default_witness :
  exists h d' el,
    constructor i18n_id (VBool false) (Some cfg_h2_h3_center)
                (VObj [("level", VNum (Int 99))]) ∅ = Ok (h, d') /\
    level (_data h) = 99 /\
    d' !! render h = Some el /\
    Dom.tagName el = "H1" /\
    saved_level (save h el) = 1.
Proof.
  apply (unavailable_level_is_kept_but_resolves_to_default i18n_id
           (VBool false) cfg_h2_h3_center 99 ∅).
  - lia.
  - reflexivity.
  - intros l Hl. vm_compute in Hl.
    destruct Hl as [<-|[<-|[]]]; simpl; lia.
Defined.

(* ===================================================================== *)
(** ** The class list after an alignment change                            *)
(* ===================================================================== *)

Section AlignmentExact.

Lemma filter_filter {A : Type} (f g : A -> bool) (l : list A) :
  List.filter f (List.filter g l) = List.filter (fun x => g x && f x) l.
Proof.
  induction l as [|x l IH]; simpl; [done|].
  destruct (g x); simpl; [destruct (f x)|]; by rewrite IH.
Qed.

Lemma token_add_remove (c : string) (cs : list string) :
  Dom.token_add c (Dom.token_remove c cs) = (Dom.token_remove c cs ++ [c])%list.
Proof.
  unfold Dom.token_add.
  destruct (existsb _ _) eqn:Hex; [|done].
  apply existsb_exists in Hex as (x & Hx & Heq).
  apply String.eqb_eq in Heq. subst x.
  apply In_token_remove in Hx as [_ Hne]. done.
Qed.

Lemma token_remove_app (c : string) (cs cs' : list string) :
  Dom.token_remove c (cs ++ cs') =
  (Dom.token_remove c cs ++ Dom.token_remove c cs')%list.
Proof. apply List.filter_app. Qed.

Lemma token_remove_same (c : string) : Dom.token_remove c [c] = [].
Proof. unfold Dom.token_remove. cbn [List.filter]. by rewrite String.eqb_refl. Qed.

Lemma token_remove_other (c c' : string) :
  c <> c' -> Dom.token_remove c [c'] = [c'].
Proof.
  intros Hne. unfold Dom.token_remove. cbn [List.filter].
  by destruct (String.eqb_spec c c').
Qed.

(** Removing the classes of [names], one name after the other. *)
Lemma remove_classes_filter (names : list string) (cs : list string) :
  fold_left (fun cs a => Dom.token_remove (CSS_wrapperForAlignment (VStr a)) cs)
            names cs =
  List.filter
    (fun c => negb (existsb (fun a => String.eqb (CSS_wrapperForAlignment (VStr a)) c)
                            names))
    cs.
Proof.
  revert cs. induction names as [|a names IH]; intros cs; simpl.
  - induction cs as [|c cs IHcs]; simpl; [done|]. by rewrite <- IHcs.
  - rewrite IH. unfold Dom.token_remove. rewrite filter_filter.
    apply List.filter_ext. intros c. by rewrite negb_orb.
Qed.

(** The node after the [forEach] over [names]: only its class list has
    changed; the classes of [names] are gone and, when the new value is
    one of [names], its class has been appended. *)
Lemma align_fold_node (newAlign : value) (names : list string) (n : Dom.node) :
  fold_left (align_step newAlign) names n =
  Dom.set_classList
    (fold_left (fun cs a => Dom.token_remove (CSS_wrapperForAlignment (VStr a)) cs)
               names (Dom.classList n) ++
     if existsb (fun a => strict_eq newAlign (VStr a)) names
     then [CSS_wrapperForAlignment newAlign] else [])%list
    n.
Proof.
  induction names as [|a names IH] using rev_ind.
  - simpl. rewrite app_nil_r. by destruct n.
  - rewrite !fold_left_app, existsb_app. cbn [fold_left existsb]. rewrite IH.
    unfold align_step, Dom.classList_remove, Dom.classList_add,
      Dom.set_classList.
    cbn [Dom.classList Dom.tagName Dom.innerHTML Dom.contentEditable
         Dom.placeholder Dom.parentNode Dom.childNodes].
    rewrite token_remove_app.
    destruct (strict_eq newAlign (VStr a)) eqn:Heq.
    + apply strict_eq_str in Heq. subst newAlign.
      rewrite orb_true_r.
      assert (Dom.token_remove (CSS_wrapperForAlignment (VStr a))
                (if existsb (fun a0 => strict_eq (VStr a) (VStr a0)) names
                 then [CSS_wrapperForAlignment (VStr a)] else []) = []) as ->.
      { destruct (existsb _ names); [|done]. apply token_remove_same. }
      rewrite app_nil_r. by rewrite token_add_remove.
    + rewrite orb_false_r.
      destruct (existsb _ names) eqn:Hex; [|done].
      apply existsb_exists in Hex as (b & Hb & Hstrict).
      apply strict_eq_str in Hstrict. subst newAlign.
      rewrite token_remove_other; [done|].
      intros Hc. apply wrapperForAlignment_inj in Hc. subst b.
      simpl in Heq. by rewrite String.eqb_refl in Heq.
Qed.

Lemma align_fold_ALIGN_TYPES (newAlign : value) (n : Dom.node) :
  fold_left (align_step newAlign) ALIGN_TYPES n =
  Dom.set_classList
    (without_alignment_classes (Dom.classList n) ++
     if existsb (fun a => strict_eq newAlign (VStr a)) ALIGN_TYPES
     then [CSS_wrapperForAlignment newAlign] else [])%list
    n.
Proof. by rewrite align_fold_node, remove_classes_filter. Qed.

Lemma existsb_known_name (a : string) :
  In a ALIGN_TYPES ->
  existsb (fun b => strict_eq (VStr a) (VStr b)) ALIGN_TYPES = true.
Proof.
  intros Ha. apply existsb_exists. exists a. split; [done|].
  simpl. apply String.eqb_refl.
Qed.

Lemma existsb_unknown_value (v : value) :
  (forall a, In a ALIGN_TYPES -> v <> VStr a) ->
  existsb (fun b => strict_eq v (VStr b)) ALIGN_TYPES = false.
Proof.
  intros Hv. apply not_true_is_false. intros Hex.
  apply existsb_exists in Hex as (a & Ha & Heq).
  apply strict_eq_str in Heq. by apply (Hv a).
Qed.

(** [_setAlignType] as one update of the tracked element. *)
Lemma setAlignType_alter (newAlign : value) (h : t) (d : Dom.store) :
  _setAlignType newAlign h d =
  (with_data (Data (text (_data h)) (level (_data h)) newAlign) h,
   alter (fun n => fold_left (align_step newAlign) ALIGN_TYPES n)
         (_element h) d).
Proof.
  unfold _setAlignType. cbv zeta. cbn [with_data _element]. f_equal.
  apply map_eq. intros r. rewrite setAlignType_fold, lookup_alter.
  case_decide; case_decide; try done; by subst.
Qed.

Lemma is_alignment_class_known (a : string) :
  In a ALIGN_TYPES -> is_alignment_class (CSS_wrapperForAlignment (VStr a)) = true.
Proof.
  intros Ha. apply existsb_exists. exists a. split; [done|apply String.eqb_refl].
Qed.

Lemma without_alignment_classes_In (c : string) (cs : list string) :
  In c (without_alignment_classes cs) <->
  In c cs /\ is_alignment_class c = false.
Proof.
  unfold without_alignment_classes. by rewrite filter_In, negb_true_iff.
Qed.

Lemma without_alignment_classes_idem (cs : list string) (a : string) :
  In a ALIGN_TYPES ->
  without_alignment_classes
    (without_alignment_classes cs ++ [CSS_wrapperForAlignment (VStr a)]) =
  without_alignment_classes cs.
Proof.
  intros Ha. unfold without_alignment_classes.
  rewrite List.filter_app, filter_filter. cbn [List.filter].
  rewrite (is_alignment_class_known a Ha). cbn [negb]. rewrite app_nil_r.
  apply List.filter_ext. intros c. by destruct (is_alignment_class c).
Qed.

(** X11: after the alignment-change callback is called with one of the
    four names, the class list of the tracked element is its old class
    list without the alignment classes, in the old order, followed by the
    class of the new name, which therefore occurs exactly once; nothing
    else of the element and no other node changes, and [render()] returns
    the same node. *)
Theorem setAlignType_exact_class_list
    (newAlign : string) (h : t) (d : Dom.store) (el : Dom.node) :
  In newAlign ALIGN_TYPES ->
  d !! _element h = Some el ->
  render (_setAlignType (VStr newAlign) h d).1 = render h /\
  (_setAlignType (VStr newAlign) h d).2 !! _element h =
    Some (Dom.set_classList
            (without_alignment_classes (Dom.classList el) ++
             [CSS_wrapperForAlignment (VStr newAlign)])%list
            el) /\
  (forall r, r <> _element h ->
             (_setAlignType (VStr newAlign) h d).2 !! r = d !! r).
Proof.
  intros Hnew Hel. rewrite setAlignType_alter. cbn [fst snd].
  split; [reflexivity|]. split.
  - rewrite lookup_alter_eq, Hel. cbn [fmap option_fmap option_map].
    by rewrite align_fold_ALIGN_TYPES, existsb_known_name.
  - intros r Hr. by rewrite lookup_alter_ne.
Qed.

(** X12: two alignment changes in a row leave the block and the
    document exactly as the second one alone would; in particular
    repeating a change has no further effect. *)
Theorem setAlignType_last_wins (a b : string) (h : t) (d : Dom.store) :
  In a ALIGN_TYPES ->
  In b ALIGN_TYPES ->
  _setAlignType (VStr b) (_setAlignType (VStr a) h d).1
                (_setAlignType (VStr a) h d).2 =
  _setAlignType (VStr b) h d.
Proof.
  intros Ha Hb. rewrite !setAlignType_alter.
  cbn [fst snd with_data _element _api _readOnly _config _data text level].
  f_equal. rewrite alter_alter_eq. apply alter_ext. intros n _.
  unfold compose. rewrite !align_fold_ALIGN_TYPES, !existsb_known_name by done.
  cbn [Dom.set_classList Dom.classList Dom.tagName Dom.innerHTML
       Dom.contentEditable Dom.placeholder Dom.parentNode Dom.childNodes].
  by rewrite without_alignment_classes_idem.
Qed.

(** X13: when the alignment-change callback is called with a value
    that is none of the four names, every alignment class is removed from
    the tracked element and none is added; the value is stored as it is,
    and the current alignment then resolves to the default. *)
Theorem setAlignType_unknown_value
    (newAlign : value) (h : t) (d : Dom.store) (el : Dom.node) :
  (forall a, In a ALIGN_TYPES -> newAlign <> VStr a) ->
  d !! _element h = Some el ->
  (_setAlignType newAlign h d).2 !! _element h =
    Some (Dom.set_classList (without_alignment_classes (Dom.classList el)) el) /\
  (forall a, In a ALIGN_TYPES ->
     ~ In (CSS_wrapperForAlignment (VStr a))
          (without_alignment_classes (Dom.classList el))) /\
  align (_data (_setAlignType newAlign h d).1) = newAlign /\
  currentAlignType (_config h) (_data (_setAlignType newAlign h d).1) =
    userDefaultAlignType (_config h).
Proof.
  intros Hunknown Hel. rewrite setAlignType_alter. cbn [fst snd].
  split.
  { rewrite lookup_alter_eq, Hel. cbn [fmap option_fmap option_map].
    rewrite align_fold_ALIGN_TYPES, existsb_unknown_value by done.
    by rewrite app_nil_r. }
  split.
  { intros a Ha Hin. apply without_alignment_classes_In in Hin as [_ Hno].
    by rewrite is_alignment_class_known in Hno. }
  split; [reflexivity|].
  cbn [with_data _data].
  destruct (currentAlignType_cases (_config h)
              (Data (text (_data h)) (level (_data h)) newAlign))
    as [[Hin Heq]|[_ Hcur]]; [|done].
  cbn [align] in Heq.
  by destruct (Hunknown _ (availableAlignTypes_built_in _ _ Hin)).
Qed.

(** X14: when the tracked element shows the state and the
    alignment-change callback is called with an available name, it still
    shows the state afterwards, and [save] reports the new name with the
    level and the markup unchanged. *)
Theorem setAlignType_available_keeps_sync
    (newAlign : string) (h : t) (d : Dom.store) :
  in_sync h d ->
  In newAlign (availableAlignTypes (_config h)) ->
  in_sync (_setAlignType (VStr newAlign) h d).1
          (_setAlignType (VStr newAlign) h d).2 /\
  exists el el',
    d !! _element h = Some el /\
    (_setAlignType (VStr newAlign) h d).2 !! _element h = Some el' /\
    save (_setAlignType (VStr newAlign) h d).1 el' =
      Saved (Dom.innerHTML el) (saved_level (save h el)) newAlign.
Proof.
  intros (el & Hel & Htag & Hcls) Hnew.
  pose proof (availableAlignTypes_built_in _ _ Hnew) as Hknown.
  rewrite setAlignType_alter. cbn [fst snd].
  assert (currentAlignType (_config h)
            (Data (text (_data h)) (level (_data h)) (VStr newAlign))
          = newAlign) as Hcur by (by apply currentAlignType_available).
  assert (alter (fun n => fold_left (align_step (VStr newAlign)) ALIGN_TYPES n)
                (_element h) d !! _element h
          = Some (Dom.set_classList
                    (without_alignment_classes (Dom.classList el) ++
                     [CSS_wrapperForAlignment (VStr newAlign)])%list el))
    as Hel'.
  { rewrite lookup_alter_eq, Hel. cbn [fmap option_fmap option_map].
    by rewrite align_fold_ALIGN_TYPES, existsb_known_name. }
  split.
  - eexists. cbn [with_data _element _config _data].
    split; [exact Hel'|]. split; [exact Htag|].
    intros a Ha. rewrite Hcur.
    cbn [Dom.set_classList Dom.classList]. rewrite in_app_iff.
    rewrite without_alignment_classes_In, is_alignment_class_known by done.
    cbn [In]. split.
    + intros [[_ ?]|[Heq|[]]]; [done|].
      symmetry. by apply wrapperForAlignment_inj.
    + intros ->. right. by left.
  - eexists _, _. split; [exact Hel|]. split; [exact Hel'|].
    unfold save. cbn [with_data _config _data Dom.set_classList Dom.innerHTML
                      saved_level].
    by rewrite Hcur.
Qed.

End AlignmentExact.

(** X11 at a class list holding the classes of [justify] and [left]. *)
Lemma setAlignType_exact_class_list_witness :
  (_setAlignType (VStr "center") (header_foo empty_config)
                 doc_two_alignments).2 !! 1%nat =
  Some (Dom.Node "H1" "Foo" ["ce-header"; "ce-header-align-center"]
                 true "" None []).
Proof.
  apply (proj1 (proj2 (setAlignType_exact_class_list "center"
                         (header_foo empty_config) doc_two_alignments
                         (Dom.Node "H1" "Foo"
                            ["ce-header-align-justify"; "ce-header";
                             "ce-header-align-left"] true "" None [])
                         ltac:(simpl; tauto) eq_refl))).
Defined.

(** X12 at [right] then [center]. *)
Lemma setAlignType_last_wins_witness :
  _setAlignType (VStr "center")
    (_setAlignType (VStr "right") (header_foo empty_config) doc_detached).1
    (_setAlignType (VStr "right") (header_foo empty_config) doc_detached).2 =
  _setAlignType (VStr "center") (header_foo empty_config) doc_detached.
Proof.
  apply (setAlignType_last_wins "right" "center"
           (header_foo empty_config) doc_detached).
  - simpl. tauto.
  - simpl. tauto.
Defined.

(** X13 at the value ["middle"]. *)
Lemma setAlignType_unknown_value_witness :
  (_setAlignType (VStr "middle") (header_foo empty_config) doc_detached).2
    !! 1%nat =
  Some (Dom.Node "H1" "Foo" ["ce-header"] true "" None []) /\
  currentAlignType empty_config
    (_data (_setAlignType (VStr "middle") (header_foo empty_config)
                          doc_detached).1) = "left".
Proof.
  destruct (setAlignType_unknown_value (VStr "middle")
              (header_foo empty_config) doc_detached (heading_foo None))
    as (Hlookup & _ & _ & Hcur).
  - intros a Ha. simpl in Ha.
    destruct Ha as [<-|[<-|[<-|[<-|[]]]]]; discriminate.
  - reflexivity.
  - split; [exact Hlookup | exact Hcur].
Defined.

(** X14 at the heading "Foo" and the name [justify]. *)
Lemma setAlignType_available_keeps_sync_witness :
  in_sync (_setAlignType (VStr "justify") (header_foo empty_config)
                         doc_detached).1
          (_setAlignType (VStr "justify") (header_foo empty_config)
                         doc_detached).2.
Proof.
  apply (setAlignType_available_keeps_sync "justify"
           (header_foo empty_config) doc_detached).
  - exists (heading_foo None). split; [reflexivity|]. split; [reflexivity|].
    intros a Ha. simpl in Ha.
    destruct Ha as [<-|[<-|[<-|[<-|[]]]]]; vm_compute;
      intuition (discriminate || auto).
  - vm_compute. tauto.
Defined.

(* ===================================================================== *)
(** ** Level changes and the document                                      *)
(* ===================================================================== *)

Section LevelAndDocument.

Lemma HEADER_LEVELS_tag_inj (l l' : level_t) :
  In l HEADER_LEVELS -> In l' HEADER_LEVELS -> tag l = tag l' -> l = l'.
Proof.
  unfold HEADER_LEVELS. simpl.
  intros Hl Hl' Htag.
  repeat (destruct Hl as [<-|Hl]; [|]); try done;
    repeat (destruct Hl' as [<-|Hl']; [|]); try done; discriminate Htag.
Qed.

Lemma replace_ref_In (old new : Dom.ref) (l : list Dom.ref) :
  In old l -> In new (Dom.replace_ref old new l).
Proof.
  induction l as [|x l IH]; simpl; [done|].
  destruct (Nat.eqb_spec x old) as [->|Hne]; [by left|].
  intros [->|Hin]; [done|]. right. by apply IH.
Qed.

Lemma replace_ref_length (old new : Dom.ref) (l : list Dom.ref) :
  List.length (Dom.replace_ref old new l) = List.length l.
Proof.
  induction l as [|x l IH]; simpl; [done|].
  destruct (Nat.eqb x old); simpl; by rewrite ?IH.
Qed.

Lemma setHeaderLevel_undefined (h : t) (d : Dom.store) :
  _setHeaderLevel VUndefined h d =
  Ok (with_data (data_with_level VUndefined h) h, d).
Proof. reflexivity. Qed.

(** The document after the swap of [_setHeaderLevel], read at the new
    node, at the old node and at the parent. *)
Lemma swapped_lookups (d : Dom.store) (old parent : Dom.ref)
    (el p built_el : Dom.node) :
  d !! old = Some el ->
  d !! parent = Some p ->
  let new := fresh (dom d) in
  let d' :=
    alter (Dom.set_parentNode None) old
      (alter (Dom.set_parentNode (Some parent)) new
         (alter (Dom.set_childNodes
                   (Dom.replace_ref old new (Dom.childNodes p)))
                parent
                (<[new := built_el]> d))) in
  d' !! new = Some (Dom.set_parentNode (Some parent) built_el) /\
  Dom.parentNode <$> d' !! old = Some None /\
  Dom.childNodes <$> d' !! parent =
    Some (Dom.replace_ref old new (Dom.childNodes p)) /\
  (forall r, r <> new -> r <> old -> r <> parent -> d' !! r = d !! r).
Proof.
  intros Hel Hp new d'. subst d'.
  pose proof (fresh_ne d _ _ Hel) as Hne1.
  pose proof (fresh_ne d _ _ Hp) as Hne2.
  fold new in Hne1, Hne2.
  split; [|split; [|split]].
  - rewrite lookup_alter_ne by done.
    rewrite lookup_alter_eq, lookup_alter_ne by done.
    by rewrite lookup_insert_eq.
  - rewrite lookup_alter_eq, lookup_alter_ne by done.
    rewrite lookup_alter.
    case_decide; rewrite lookup_insert_ne by done;
      [by rewrite Hp | by rewrite Hel].
  - rewrite !lookup_alter, lookup_insert_ne, Hp by done.
    repeat case_decide; try done.
  - intros r Hr1 Hr2 Hr3.
    by rewrite !lookup_alter_ne, lookup_insert_ne.
Qed.

(** X15: in a document where the tracked element, if it has a parent,
    is listed among that parent's children, the level-change callback
    never throws, whatever its argument; it stores
    [parseInt(newLevel) || default id] and leaves the document in such a
    state again. *)
Theorem setHeaderLevel_keeps_consistency
    (newLevel : value) (h : t) (d : Dom.store) :
  consistent h d ->
  exists h' d',
    _setHeaderLevel newLevel h d = Ok (h', d') /\
    _data h' = data_with_level newLevel h /\
    consistent h' d'.
Proof.
  intros (el & Hel & Hparent).
  destruct (Dom.parentNode el) as [parent|] eqn:Hpar.
  - destruct Hparent as (p & Hp & Hchild).
    destruct (strict_eq newLevel VUndefined) eqn:Hundef.
    + assert (newLevel = VUndefined) as ->
        by (by destruct newLevel as [| |?|[|?]|?|?]).
      rewrite setHeaderLevel_undefined. eexists _, _.
      split; [reflexivity|]. split; [reflexivity|].
      exists el. cbn [with_data _element]. split; [done|].
      rewrite Hpar. eauto.
    + rewrite (setHeaderLevel_attached newLevel h d el p parent) by done.
      destruct (swapped_lookups d (_element h) parent el p
                  (Dom.set_innerHTML (Dom.innerHTML el)
                     (built (_api h) (_readOnly h) (_config h)
                            (data_with_level newLevel h))) Hel Hp)
        as (Hnew & _ & Hkids & _).
      eexists _, _. split; [reflexivity|]. split; [reflexivity|].
      eexists. cbn [_element]. split; [exact Hnew|].
      cbn [Dom.set_parentNode Dom.parentNode].
      destruct (alter _ (_element h) _ !! parent) as [p'|]; [|done].
      exists p'. split; [done|].
      cbn [fmap option_fmap option_map] in Hkids. injection Hkids as ->.
      by apply replace_ref_In.
  - rewrite (setHeaderLevel_detached newLevel h d el) by done.
    eexists _, _. split; [reflexivity|]. split; [reflexivity|].
    exists el. cbn [with_data _element]. split; [done|]. by rewrite Hpar.
Qed.

(** X16: when the tracked element is attached and the argument is not
    [undefined], the level change rebuilds the element from the state:
    the new node shows the state (tag of the current level, only the
    class of the current alignment among the alignment classes), its
    class list is exactly the wrapper class and that alignment class,
    whatever classes the old node carried, and its markup is the old
    markup.  The old node stays in the document without a parent, the
    parent keeps the number of its children, and no other node changes. *)
Theorem setHeaderLevel_rebuilds_from_state
    (newLevel : value) (h : t) (d : Dom.store)
    (el p : Dom.node) (parent : Dom.ref) :
  newLevel <> VUndefined ->
  d !! _element h = Some el ->
  Dom.parentNode el = Some parent ->
  d !! parent = Some p ->
  In (_element h) (Dom.childNodes p) ->
  exists h' d' el' p',
    _setHeaderLevel newLevel h d = Ok (h', d') /\
    d !! render h' = None /\
    d' !! render h' = Some el' /\
    in_sync h' d' /\
    Dom.classList el' =
      [ CSS_wrapper;
        CSS_wrapperForAlignment
          (VStr (currentAlignType (_config h) (_data h))) ] /\
    Dom.innerHTML el' = Dom.innerHTML el /\
    Dom.parentNode el' = Some parent /\
    Dom.parentNode <$> d' !! _element h = Some None /\
    d' !! parent = Some p' /\
    In (render h') (Dom.childNodes p') /\
    List.length (Dom.childNodes p') = List.length (Dom.childNodes p) /\
    (forall r, r <> render h' -> r <> _element h -> r <> parent ->
               d' !! r = d !! r).
Proof.
  intros Hdef Hel Hpar Hp Hchild.
  assert (strict_eq newLevel VUndefined = false) as Hundef
    by (by destruct newLevel as [| |?|[|?]|?|?]).
  rewrite (setHeaderLevel_attached newLevel h d el p parent) by done.
  destruct (swapped_lookups d (_element h) parent el p
              (Dom.set_innerHTML (Dom.innerHTML el)
                 (built (_api h) (_readOnly h) (_config h)
                        (data_with_level newLevel h))) Hel Hp)
    as (Hnew & Hold & Hkids & Hframe).
  destruct (alter _ (_element h) _ !! parent) as [p'|] eqn:Hp'; [|done].
  cbn [fmap option_fmap option_map] in Hkids. injection Hkids as Hkids.
  eexists _, _, _, p'. split; [reflexivity|].
  cbn [render _element].
  split; [apply fresh_not_in_store|].
  split; [exact Hnew|].
  split.
  { eexists. cbn [_element _config _data]. split; [exact Hnew|].
    split; [reflexivity|]. intros a _.
    apply (built_alignment_classes (_api h) (_readOnly h)). }
  split; [reflexivity|].
  split; [exact (innerHTML_reads_as_itself el)|].
  split; [reflexivity|].
  split; [exact Hold|].
  split; [exact Hp'|].
  split; [rewrite Hkids; by apply replace_ref_In|].
  split; [rewrite Hkids; apply replace_ref_length|].
  exact Hframe.
Qed.

(** X17: [_setHeaderLevel(undefined)] stores the id of the resolved
    default level and touches nothing in the document, attached element
    or not; so when the element showed a current level other than the
    default, its tag no longer matches the state. *)
Theorem setHeaderLevel_undefined_resets_state_only (h : t) (d : Dom.store) :
  exists h',
    _setHeaderLevel VUndefined h d = Ok (h', d) /\
    render h' = render h /\
    level (_data h') = id (userDefaultLevel (_config h)) /\
    currentLevel (_config h) (_data h') = userDefaultLevel (_config h) /\
    (in_sync h d ->
     currentLevel (_config h) (_data h) <> userDefaultLevel (_config h) ->
     ~ in_sync h' d).
Proof.
  rewrite setHeaderLevel_undefined. eexists. split; [reflexivity|].
  cbn [render with_data _element _data _config data_with_level level].
  split; [reflexivity|]. split; [reflexivity|].
  assert (currentLevel (_config h) (data_with_level VUndefined h)
          = userDefaultLevel (_config h)) as Hcur.
  { apply currentLevel_of_id;
      [apply userDefaultLevel_built_in | reflexivity | by right]. }
  split; [exact Hcur|].
  intros (el & Hel & Htag & _) Hne (el' & Hel' & Htag' & _).
  cbn [with_data _element _config _data] in Hel', Htag'.
  rewrite Hel in Hel'. injection Hel' as <-.
  rewrite Hcur, Htag in Htag'.
  apply Hne, HEADER_LEVELS_tag_inj;
    [apply currentLevel_built_in | apply userDefaultLevel_built_in | done].
Qed.

(** X18: when the tracked element has no parent, a change to another
    available level changes the state only: [render()] still returns the
    same node with its old tag, while [save] already reports the new
    level. *)
Theorem setHeaderLevel_detached_leaves_stale_tag
    (l : level_t) (h : t) (d : Dom.store) (el : Dom.node) :
  d !! _element h = Some el ->
  Dom.parentNode el = None ->
  Dom.tagName el = tag (currentLevel (_config h) (_data h)) ->
  In l (availableLevels (_config h)) ->
  l <> currentLevel (_config h) (_data h) ->
  exists h',
    _setHeaderLevel (VNum (Int (id l))) h d = Ok (h', d) /\
    render h' = render h /\
    saved_level (save h' el) = id l /\
    Dom.tagName el <> tag (currentLevel (_config h) (_data h')).
Proof.
  intros Hel Hpar Htag Hl Hne.
  rewrite (setHeaderLevel_detached _ h d el) by done.
  eexists. split; [reflexivity|].
  cbn [render with_data _element _data _config].
  split; [reflexivity|].
  pose proof (availableLevels_built_in _ _ Hl) as Hbuilt.
  assert (currentLevel (_config h) (data_with_level (VNum (Int (id l))) h)
          = l) as Hcur.
  { apply currentLevel_available; [done|].
    unfold data_with_level. cbn [level].
    rewrite parseInt_or_level; [done|by apply HEADER_LEVELS_id_range]. }
  unfold save. cbn [saved_level _config _data with_data]. rewrite Hcur.
  split; [reflexivity|].
  rewrite Htag. intros Heq. apply Hne. symmetry.
  apply HEADER_LEVELS_tag_inj; [apply currentLevel_built_in|done|done].
Qed.

End LevelAndDocument.

(** X15 at the attached heading "Foo" and the argument ["abc"]. *)
Lemma setHeaderLevel_keeps_consistency_witness :
  exists h' d',
    _setHeaderLevel (VStr "abc") (header_foo empty_config) doc_attached
      = Ok (h', d') /\
    _data h' = Data (VStr "Foo") 1 (VStr "left") /\
    consistent h' d'.
Proof.
  apply (setHeaderLevel_keeps_consistency (VStr "abc")
           (header_foo empty_config) doc_attached).
  exists (heading_foo (Some 0%nat)). split; [reflexivity|].
  simpl. exists (Dom.Node "DIV" "" [] false "" None [1%nat]).
  split; [reflexivity|]. simpl. left. reflexivity.
Defined.

(** X16 at the attached heading "Foo" and the argument ["4"]. *)
Lemma setHeaderLevel_rebuilds_from_state_witness :
  exists h' d' el',
    _setHeaderLevel (VStr "4") (header_foo empty_config) doc_attached
      = Ok (h', d') /\
    d' !! render h' = Some el' /\
    in_sync h' d' /\
    Dom.innerHTML el' = "Foo" /\
    Dom.parentNode <$> d' !! 1%nat = Some None.
Proof.
  destruct (setHeaderLevel_rebuilds_from_state (VStr "4")
              (header_foo empty_config) doc_attached
              (heading_foo (Some 0%nat))
              (Dom.Node "DIV" "" [] false "" None [1%nat]) 0%nat)
    as (h' & d' & el' & p' & Hrun & _ & Hel' & Hsync & _ & Hmarkup & _
        & Hold & _).
  - discriminate.
  - reflexivity.
  - reflexivity.
  - reflexivity.
  - simpl. left. reflexivity.
  - exists h', d', el'. split; [exact Hrun|]. split; [exact Hel'|].
    split; [exact Hsync|]. split; [exact Hmarkup | exact Hold].
Defined.

(** X18 at the detached heading "Foo" and level 2. *)
Lemma setHeaderLevel_detached_leaves_stale_tag_witness :
  exists h',
    _setHeaderLevel (VNum (Int 2)) (header_foo empty_config) doc_detached
      = Ok (h', doc_detached) /\
    render h' = 1%nat /\
    saved_level (save h' (heading_foo None)) = 2 /\
    Dom.tagName (heading_foo None) <> tag (currentLevel empty_config (_data h')).
Proof.
  apply (setHeaderLevel_detached_leaves_stale_tag (Level 2 "H2" h2Icon)
           (header_foo empty_config) doc_detached (heading_foo None)).
  - reflexivity.
  - reflexivity.
  - reflexivity.
  - vm_compute. right. left. reflexivity.
  - vm_compute. discriminate.
Defined.

(* ===================================================================== *)
(** ** The settings menu and its callbacks                                 *)
(* ===================================================================== *)

Section Menu.

Lemma active_level_entries (i18n_t : string -> string) (c : Z) :
  1 <= c <= 6 ->
  map onActivate
      (List.filter isActive
         (map (fun level =>
                 _createSetting
                   (icon level)
                   (_getFormattedLabel i18n_t (VNum (Int (id level)))
                                       (VStr "Heading "))
                   (call_setHeaderLevel (id level))
                   (Z.eqb (id level) c)
                   "heading")
              HEADER_LEVELS)) =
  [call_setHeaderLevel c].
Proof.
  intros Hc.
  assert (c = 1 \/ c = 2 \/ c = 3 \/ c = 4 \/ c = 5 \/ c = 6) as H by lia.
  repeat (destruct H as [->|H]; [reflexivity|]). by subst.
Qed.

Lemma active_align_entries (i18n_t : string -> string) (c : string) :
  In c ALIGN_TYPES ->
  map onActivate
      (List.filter isActive
         (map (fun a =>
                 _createSetting
                   (alignmentIcon a)
                   (_getFormattedLabel i18n_t (VStr a) VUndefined)
                   (call_setAlignType a)
                   (String.eqb a c)
                   "align")
              ALIGN_TYPES)) =
  [call_setAlignType c].
Proof.
  unfold ALIGN_TYPES. simpl In.
  intros H. repeat (destruct H as [<-|H]; [reflexivity|]). done.
Qed.

Lemma active_entries (h : t) :
  map onActivate (List.filter isActive (renderSettings h)) =
  [ call_setHeaderLevel (id (currentLevel (_config h) (_data h)));
    call_setAlignType (currentAlignType (_config h) (_data h)) ].
Proof.
  unfold renderSettings. cbv zeta.
  rewrite List.filter_app, map_app.
  rewrite active_level_entries by apply currentLevel_id_range.
  by rewrite active_align_entries by apply currentAlignType_built_in.
Qed.

(** X19: whatever the configuration and the state, the menu has exactly
    two active entries: the heading entry of the current level and the
    alignment entry of the current alignment, also when these are
    fallbacks outside the allow-lists. *)
Theorem renderSettings_one_active_per_group (h : t) :
  map onActivate (List.filter isActive (renderSettings h)) =
  [ call_setHeaderLevel (id (currentLevel (_config h) (_data h)));
    call_setAlignType (currentAlignType (_config h) (_data h)) ] /\
  List.length (List.filter (fun s => String.eqb (toggle s) "heading")
                           (List.filter isActive (renderSettings h))) = 1%nat /\
  List.length (List.filter (fun s => String.eqb (toggle s) "align")
                           (List.filter isActive (renderSettings h))) = 1%nat.
Proof.
  split; [apply active_entries|].
  pose proof (active_entries h) as Hact.
  pose proof (renderSettings_flags h) as Hflags.
  destruct (List.filter isActive (renderSettings h)) as [|s1 [|s2 [|s3 rest]]]
    eqn:Hlist; try discriminate Hact.
  injection Hact as H1 H2.
  assert (In s1 (renderSettings h)) as Hs1.
  { eapply (proj1 (filter_In isActive s1 _)). rewrite Hlist. by left. }
  assert (In s2 (renderSettings h)) as Hs2.
  { eapply (proj1 (filter_In isActive s2 _)). rewrite Hlist. right. by left. }
  destruct (Hflags s1 Hs1) as [_ Hg1]. destruct (Hflags s2 Hs2) as [_ Hg2].
  rewrite H1 in Hg1. rewrite H2 in Hg2.
  destruct Hg1 as [Hg1 _]. destruct Hg2 as [Hg2 _].
  cbn [List.filter]. rewrite Hg1, Hg2. split; reflexivity.
Qed.

(** X20: activating the menu entry of an available alignment makes it
    the active alignment entry and keeps the active heading entry;
    activating the entry of an alignment name that is not available makes
    the entry of the resolved default alignment the active one. *)
Theorem activate_alignment_entry (a : string) (h : t) (d : Dom.store) :
  In a ALIGN_TYPES ->
  exists h' d',
    activate (call_setAlignType a) h d = Ok (h', d') /\
    (In a (availableAlignTypes (_config h)) ->
     map onActivate (List.filter isActive (renderSettings h')) =
     [ call_setHeaderLevel (id (currentLevel (_config h) (_data h)));
       call_setAlignType a ]) /\
    (~ In a (availableAlignTypes (_config h)) ->
     map onActivate (List.filter isActive (renderSettings h')) =
     [ call_setHeaderLevel (id (currentLevel (_config h) (_data h)));
       call_setAlignType (userDefaultAlignType (_config h)) ]).
Proof.
  intros Ha. unfold activate. rewrite setAlignType_alter.
  eexists _, _. split; [reflexivity|].
  rewrite active_entries. cbn [with_data _config _data].
  split.
  - intros Hin. by rewrite (currentAlignType_available _ _ a).
  - intros Hnot.
    destruct (currentAlignType_cases (_config h)
                (Data (text (_data h)) (level (_data h)) (VStr a)))
      as [[Hin Heq]|[_ ->]]; [|done].
    cbn [align] in Heq. injection Heq as Heq. rewrite <- Heq in Hin. done.
Qed.

(** X21: in a consistent document, activating the menu entry of an
    available level never throws and makes it the active heading entry;
    activating the entry of a built-in level that is not available never
    throws either and makes the entry of the resolved default level the
    active one.  The active alignment entry is kept. *)
Theorem activate_level_entry (l : level_t) (h : t) (d : Dom.store) :
  In l HEADER_LEVELS ->
  consistent h d ->
  exists h' d',
    activate (call_setHeaderLevel (id l)) h d = Ok (h', d') /\
    (In l (availableLevels (_config h)) ->
     map onActivate (List.filter isActive (renderSettings h')) =
     [ call_setHeaderLevel (id l);
       call_setAlignType (currentAlignType (_config h) (_data h)) ]) /\
    (~ In l (availableLevels (_config h)) ->
     map onActivate (List.filter isActive (renderSettings h')) =
     [ call_setHeaderLevel (id (userDefaultLevel (_config h)));
       call_setAlignType (currentAlignType (_config h) (_data h)) ]).
Proof.
  intros Hl Hcons. unfold activate.
  assert (exists h' d',
            _setHeaderLevel (VNum (Int (id l))) h d = Ok (h', d') /\
            _config h' = _config h /\
            _data h' = data_with_level (VNum (Int (id l))) h)
    as (h' & d' & -> & Hcfg & Hdat).
  { destruct Hcons as (el & Hel & Hparent).
    destruct (Dom.parentNode el) as [parent|] eqn:Hpar.
    - destruct Hparent as (p & Hp & Hchild).
      rewrite (setHeaderLevel_attached _ h d el p parent) by done.
      by eexists _, _.
    - rewrite (setHeaderLevel_detached _ h d el) by done.
      by eexists _, _. }
  exists h', d'. split; [reflexivity|].
  rewrite active_entries, Hcfg, Hdat.
  unfold data_with_level.
  rewrite parseInt_or_level by (by apply HEADER_LEVELS_id_range).
  split.
  - intros Hin. by rewrite (currentLevel_available _ _ l).
  - intros Hnot.
    destruct (currentLevel_cases (_config h)
                (Data (text (_data h)) (id l) (align (_data h))))
      as [[Hin Heq]|[_ ->]]; [|done].
    cbn [level] in Heq.
    apply HEADER_LEVELS_id_inj in Heq;
      [|by eapply availableLevels_built_in|done].
    rewrite Heq in Hin. done.
Qed.

End Menu.

(** X20 at the name [right], available under no configuration. *)
Lemma activate_alignment_entry_witness :
  exists h' d',
    activate (call_setAlignType "right") (header_foo empty_config)
             doc_detached = Ok (h', d') /\
    map onActivate (List.filter isActive (renderSettings h')) =
    [call_setHeaderLevel 1; call_setAlignType "right"].
Proof.
  destruct (activate_alignment_entry "right" (header_foo empty_config)
              doc_detached) as (h' & d' & Hrun & Havail & _).
  - simpl. tauto.
  - exists h', d'. split; [exact Hrun|].
    apply Havail. vm_compute. tauto.
Defined.

(** X21 at level 5 under [{ levels: [2, 3], alignTypes: ['center'] }],
    where it is not available, the heading "Foo" being attached. *)
Lemma activate_level_entry_witness :
  exists h' d',
    activate (call_setHeaderLevel 5) (header_foo cfg_h2_h3_center)
             doc_attached = Ok (h', d') /\
    map onActivate (List.filter isActive (renderSettings h')) =
    [call_setHeaderLevel 1; call_setAlignType "left"].
Proof.
  destruct (activate_level_entry (Level 5 "H5" h5Icon)
              (header_foo cfg_h2_h3_center) doc_attached)
    as (h' & d' & Hrun & _ & Hnot).
  - simpl. tauto.
  - exists (heading_foo (Some 0%nat)). split; [reflexivity|].
    simpl. exists (Dom.Node "DIV" "" [] false "" None [1%nat]).
    split; [reflexivity|]. simpl. left. reflexivity.
  - exists h', d'. split; [exact Hrun|].
    apply Hnot. vm_compute. intros [H|[H|[]]]; discriminate H.
Defined.

(* ===================================================================== *)
(** ** Pasting, merging and converting                                     *)
(* ===================================================================== *)

Section PasteMergeConvert.

Lemma append_assoc (a b c : string) : (a +:+ b) +:+ c = a +:+ (b +:+ c).
Proof.
  induction a as [|x a IH]; [done|].
  change (String x ((a +:+ b) +:+ c) = String x (a +:+ b +:+ c)).
  by f_equal.
Qed.

(** What [onPaste] returns, with the level its [switch] computed. *)
Lemma onPaste_defined (headerTag : Dom.node) (h : t) (d : Dom.store) :
  exists lvl,
    let dat := Data (VStr (Dom.innerHTML headerTag)) lvl
                    (VStr (currentAlignType (_config h) (_data h))) in
    onPaste headerTag h d =
    Ok (Instance (_api h) (_readOnly h) (_config h) dat (fresh (dom d)),
        <[fresh (dom d) := built (_api h) (_readOnly h) (_config h) dat]> d) /\
    (forall l, In l HEADER_LEVELS -> Dom.tagName headerTag = tag l ->
               lvl = id l) /\
    ((forall l, In l HEADER_LEVELS -> Dom.tagName headerTag <> tag l) ->
     lvl = id (userDefaultLevel (_config h))).
Proof.
  unfold onPaste.
  rewrite normalizeData_defined by done.
  unfold mbind, result_bind, bind.
  cbn [with_data _api _readOnly _config _data].
  rewrite getElement_built.
  cbn [field assoc String.eqb Ascii.eqb Bool.eqb default from_option].
  unfold Datatypes.id.
  rewrite or_VStr_empty.
  rewrite (or_truthy (VStr (currentAlignType _ _)))
    by apply truthy_VStr, currentAlignType_nonempty.
  eexists. split; [reflexivity|].
  pose proof (userDefaultLevel_id_range (_config h)) as Hrange.
  split.
  - intros l Hl Htag. rewrite Htag. unfold HEADER_LEVELS in Hl. simpl in Hl.
    repeat (destruct Hl as [<-|Hl]; [reflexivity|]). done.
  - intros Hnone.
    destruct (String.eqb_spec (Dom.tagName headerTag) "H1") as [Heq|_];
      [by destruct (Hnone (Level 1 "H1" h1Icon) ltac:(simpl; tauto))|].
    destruct (String.eqb_spec (Dom.tagName headerTag) "H2") as [Heq|_];
      [by destruct (Hnone (Level 2 "H2" h2Icon) ltac:(simpl; tauto))|].
    destruct (String.eqb_spec (Dom.tagName headerTag) "H3") as [Heq|_];
      [by destruct (Hnone (Level 3 "H3" h3Icon) ltac:(simpl; tauto))|].
    destruct (String.eqb_spec (Dom.tagName headerTag) "H4") as [Heq|_];
      [by destruct (Hnone (Level 4 "H4" h4Icon) ltac:(simpl; tauto))|].
    destruct (String.eqb_spec (Dom.tagName headerTag) "H5") as [Heq|_];
      [by destruct (Hnone (Level 5 "H5" h5Icon) ltac:(simpl; tauto))|].
    destruct (String.eqb_spec (Dom.tagName headerTag) "H6") as [Heq|_];
      [by destruct (Hnone (Level 6 "H6" h6Icon) ltac:(simpl; tauto))|].
    by apply parseInt_or_level.
Qed.

(** X22: the tags that trigger a paste are exactly the tags of the six
    built-in levels, in the same order, and for a pasted element with the
    tag of a built-in level [onPaste] stores the id of that level: on the
    tags of [pasteConfig] the [switch] of [onPaste] and [HEADER_LEVELS]
    agree, and the fallback to the default is not taken. *)
Theorem paste_table_matches_levels :
  map tag HEADER_LEVELS = pasteConfig_tags /\
  forall (l : level_t) (headerTag : Dom.node) (h : t) (d : Dom.store),
    In l HEADER_LEVELS ->
    Dom.tagName headerTag = tag l ->
    exists h' d',
      onPaste headerTag h d = Ok (h', d') /\
      level (_data h') = id l.
Proof.
  split; [reflexivity|].
  intros l headerTag h d Hl Htag.
  destruct (onPaste_defined headerTag h d) as (lvl & Hrun & Hknown & _).
  cbv zeta in Hrun. rewrite Hrun. eexists _, _. split; [reflexivity|].
  cbn [_data level]. by apply Hknown.
Qed.

(** X23: after [onPaste] the tracked element is a new node that shows
    the new state, and saving it returns the pasted markup as text, the
    alignment that was current before the paste and, when the level of
    the pasted tag is available, that level.  The node tracked before is
    left in the document as it was. *)
Theorem onPaste_then_save (headerTag : Dom.node) (h : t) (d : Dom.store) :
  exists h' d' r,
    onPaste headerTag h d = Ok (h', d') /\
    _config h' = _config h /\
    save_tracked h' d' = Some r /\
    saved_text r = Dom.innerHTML headerTag /\
    saved_align r = currentAlignType (_config h) (_data h) /\
    (forall l, In l (availableLevels (_config h)) ->
               Dom.tagName headerTag = tag l -> saved_level r = id l) /\
    in_sync h' d' /\
    consistent h' d' /\
    (tracked h d -> render h' <> render h /\ d' !! render h = d !! render h).
Proof.
  destruct (onPaste_defined headerTag h d) as (lvl & Hrun & Hknown & _).
  cbv zeta in Hrun. rewrite Hrun.
  eexists _, _, _. split; [reflexivity|].
  cbn [_config _data _element render].
  split; [reflexivity|].
  unfold save_tracked. cbn [_element]. rewrite lookup_insert_eq.
  split; [reflexivity|].
  unfold save. cbn [saved_text saved_align saved_level _config _data].
  split.
  { unfold Dom.innerHTML at 1. cbn [built Dom.markup text].
    rewrite or_VStr_empty. apply innerHTML_reads_as_itself. }
  split.
  { apply currentAlignType_of_name; [done | apply currentAlignType_where]. }
  split.
  { intros l Hl Htag. f_equal. apply currentLevel_available; [done|].
    cbn [level]. symmetry.
    apply Hknown; [by eapply availableLevels_built_in | done]. }
  split.
  { eexists. cbn [_element _config _data]. split; [apply lookup_insert_eq|].
    split; [reflexivity|]. intros a _.
    apply (built_alignment_classes (_api h) (_readOnly h)). }
  split.
  { eexists. cbn [_element]. split; [apply lookup_insert_eq|]. done. }
  intros [el Hel]. pose proof (fresh_ne d _ _ Hel) as Hne.
  split; [done|]. by rewrite lookup_insert_ne.
Qed.

(** X24: [merge] raises a [TypeError] exactly when it is handed
    [undefined] or [null]; on every other value it succeeds. *)
Theorem merge_throws_only_without_fragment
    (data : value) (h : t) (d : Dom.store) :
  (merge data h d = Throw TypeError <-> data = VUndefined \/ data = VNull) /\
  (data <> VUndefined -> data <> VNull -> exists d', merge data h d = Ok d').
Proof.
  unfold merge.
  destruct data as [| |b|n|s|props]; simpl;
    (split; [split; [intros H; try discriminate H; tauto
                    | intros [H|H]; try discriminate H; reflexivity]
            | intros H1 H2; try done; by eexists]).
Qed.

(** X25: on a fragment that is neither [undefined] nor [null], [merge]
    assigns to the markup of the tracked element the old markup followed
    by the string form of [data.text] (["undefined"] when there is none)
    and changes nothing else: the other properties of the element, the
    other nodes and the state are as before.  When that string form is
    character data that needs no escaping, [save] then reports the old
    text followed by it, with the same level and alignment. *)
Theorem merge_changes_markup_only
    (data : value) (h : t) (d : Dom.store) (el : Dom.node) :
  d !! _element h = Some el ->
  data <> VUndefined ->
  data <> VNull ->
  exists d',
    merge data h d = Ok d' /\
    d' !! _element h =
      Some (Dom.set_innerHTML
              (Dom.innerHTML el +:+ to_string (field data "text")) el) /\
    (forall r, r <> _element h -> d' !! r = d !! r) /\
    (Dom.inert (to_string (field data "text")) = true ->
     save_tracked h d' =
       Some (Saved (Dom.innerHTML el +:+ to_string (field data "text"))
                   (saved_level (save h el)) (saved_align (save h el)))).
Proof.
  intros Hel Hundef Hnull.
  assert (get data "text" = Ok (field data "text")) as Hget
    by (by destruct data as [| |b|n|s|props]).
  unfold merge. rewrite Hget.
  unfold mbind, result_bind, bind, mret, result_ret.
  unfold concat, innerHTML_of. rewrite Hel.
  cbn [fmap option_fmap option_map default from_option]. unfold Datatypes.id.
  rewrite or_VStr_empty. cbn [to_string].
  eexists. split; [reflexivity|].
  split; [by rewrite lookup_alter_eq, Hel|].
  split; [intros r Hr; by rewrite lookup_alter_ne|].
  intros Hinert. unfold save_tracked. rewrite lookup_alter_eq, Hel.
  cbn [fmap option_fmap option_map]. unfold save. do 2 f_equal.
  apply reads_as_app_inert; [apply innerHTML_reads_as_itself | done].
Qed.

(** X26: merging a fragment whose text [a] is character data that needs
    no escaping and then one with text [b] assigns the same markup, and
    leaves the document exactly, as merging one fragment with text [a]
    followed by [b]. *)
Theorem merge_twice_is_merge_of_concatenation
    (a b : string) (h : t) (d : Dom.store) :
  Dom.inert a = true ->
  (d1 ← merge (VObj [("text", VStr a)]) h d;
   merge (VObj [("text", VStr b)]) h d1) =
  merge (VObj [("text", VStr (a +:+ b))]) h d.
Proof.
  intros Ha.
  unfold merge. cbn [get assoc String.eqb Ascii.eqb Bool.eqb default from_option].
  unfold mbind, result_bind, bind, mret, result_ret, Datatypes.id, concat.
  cbn [to_string]. rewrite !or_VStr_empty. cbn [to_string]. f_equal.
  unfold innerHTML_of. rewrite lookup_alter_eq.
  destruct (d !! _element h) as [el|] eqn:Hel.
  - cbn [fmap option_fmap option_map default from_option]. unfold Datatypes.id.
    unfold Dom.innerHTML at 1. cbn [Dom.set_innerHTML Dom.markup].
    rewrite reads_as_app_inert by (done || apply innerHTML_reads_as_itself).
    rewrite alter_alter_eq. apply alter_ext. intros n _.
    unfold compose. destruct n. cbn. by rewrite append_assoc.
  - cbn [fmap option_fmap option_map default from_option]. unfold Datatypes.id.
    rewrite !(alter_id' _ d) by done. reflexivity.
Qed.

(** X27: converting a block through [conversionConfig]: the exported
    field of what [save] returns is the markup of the element, and a
    block constructed from that string under the imported field, in any
    configuration, saves the same string, with the resolved default level
    and alignment of that configuration. *)
Theorem conversion_keeps_text
    (h : t) (blockContent : Dom.node)
    (i18n_t : string -> string) (readOnly : value) (cfg : config)
    (d : Dom.store) :
  get (saved_to_value (save h blockContent))
      (conversion_export conversionConfig)
    = Ok (VStr (Dom.innerHTML blockContent)) /\
  exists h' d',
    constructor i18n_t readOnly (Some cfg)
      (VObj [(conversion_import conversionConfig,
              VStr (Dom.innerHTML blockContent))]) d = Ok (h', d') /\
    save_tracked h' d' =
      Some (Saved (Dom.innerHTML blockContent)
                  (id (userDefaultLevel cfg)) (userDefaultAlignType cfg)).
Proof.
  split; [reflexivity|].
  destruct (constructor_defined i18n_t readOnly (Some cfg)
              (VObj [(conversion_import conversionConfig,
                      VStr (Dom.innerHTML blockContent))]) d)
    as (dat & Hdat & ->); [done|].
  rewrite normalizeData_defined in Hdat by done. injection Hdat as <-.
  eexists _, _. split; [reflexivity|].
  unfold save_tracked. cbn [_element]. rewrite lookup_insert_eq.
  cbn [fmap option_fmap option_map]. f_equal.
  unfold save. unfold Dom.innerHTML at 1.
  cbn [_config _data default from_option built Dom.markup text
       conversion_import conversionConfig field assoc String.eqb Ascii.eqb
       Bool.eqb].
  unfold Datatypes.id.
  rewrite !or_VStr_empty. cbn [to_string].
  rewrite innerHTML_reads_as_itself.
  change (parseInt_or VUndefined (id (userDefaultLevel cfg)))
    with (id (userDefaultLevel cfg)).
  change (or VUndefined (VStr (userDefaultAlignType cfg)))
    with (VStr (userDefaultAlignType cfg)).
  rewrite (currentLevel_of_id cfg _ (userDefaultLevel cfg));
    [|apply userDefaultLevel_built_in|done|by right].
  by rewrite (currentAlignType_of_name cfg _ (userDefaultAlignType cfg));
    [|done|by right].
Qed.

End PasteMergeConvert.

(** X26 at the heading "Foo", merging "Bar" and then "Baz". *)
Lemma merge_twice_is_merge_of_concatenation_witness :
  (d1 ← merge (VObj [("text", VStr "Bar")]) (header_foo empty_config)
              doc_detached;
   merge (VObj [("text", VStr "Baz")]) (header_foo empty_config) d1) =
  merge (VObj [("text", VStr ("Bar" +:+ "Baz"))]) (header_foo empty_config)
        doc_detached.
Proof.
  apply (merge_twice_is_merge_of_concatenation "Bar" "Baz"
           (header_foo empty_config) doc_detached).
  reflexivity.
Defined.

(** X25 at the heading "Foo" and the fragment [{text: 5}]. *)
Lemma merge_changes_markup_only_witness :
  exists d',
    merge (VObj [("text", VNum (Int 5))]) (header_foo empty_config)
          doc_detached = Ok d' /\
    save_tracked (header_foo empty_config) d' = Some (Saved "Foo5" 1 "left").
Proof.
  destruct (merge_changes_markup_only (VObj [("text", VNum (Int 5))])
              (header_foo empty_config) doc_detached (heading_foo None))
    as (d' & Hrun & _ & _ & Hsave).
  - reflexivity.
  - discriminate.
  - discriminate.
  - exists d'. split; [exact Hrun | exact (Hsave eq_refl)].
Defined.

(* ===================================================================== *)
(** ** Building the element twice                                          *)
(* ===================================================================== *)

Section Rebuilding.

(** X29: the element [_getElement()] builds is a function of the
    state: two calls in a row, the state unchanged, add two distinct
    nodes with identical tag, markup, class list, editability and
    placeholder, both detached, and change no other node. *)
Theorem getElement_twice_same_element
    (i18n_t : string -> string) (readOnly : value) (cfg : config)
    (dat : data_t) (d : Dom.store) :
  exists r1 d1 r2 d2 n,
    _getElement i18n_t readOnly cfg dat d = (r1, d1) /\
    _getElement i18n_t readOnly cfg dat d1 = (r2, d2) /\
    r1 <> r2 /\
    d !! r1 = None /\ d !! r2 = None /\
    d2 !! r1 = Some n /\ d2 !! r2 = Some n /\
    Dom.parentNode n = None /\
    (forall r, r <> r1 -> r <> r2 -> d2 !! r = d !! r).
Proof.
  rewrite getElement_built.
  eexists _, _, _, _, _. split; [reflexivity|].
  rewrite getElement_built. split; [reflexivity|].
  assert (fresh (dom (<[fresh (dom d) := built i18n_t readOnly cfg dat]> d))
          <> fresh (dom d)) as Hne.
  { eapply fresh_ne. apply lookup_insert_eq. }
  split; [done|].
  split; [apply fresh_not_in_store|].
  split.
  { pose proof (fresh_not_in_store
                  (<[fresh (dom d) := built i18n_t readOnly cfg dat]> d)) as H.
    by rewrite lookup_insert_ne in H. }
  split; [by rewrite lookup_insert_ne, lookup_insert_eq|].
  split; [apply lookup_insert_eq|].
  split; [reflexivity|].
  intros r Hr1 Hr2. by rewrite !lookup_insert_ne.
Qed.

End Rebuilding.
